(** * DashNBA: the data pipeline and the views of [app.py]

    A shallow embedding of the dashboard's Python code.  A pandas DataFrame is
    a list of rows (records with one field per column, named as the columns
    are), a float64 column holds IEEE binary64 values (Rocq's primitive
    floats, with NaN as pandas' missing value), the calls to the statistics
    provider and to [time.sleep] go through an error-and-log monad, and each
    view returns the data it hands to the rendering library.

    Left out: the memoisation of [st.cache_data], which replays a result of
    the function bodies modelled here; how long a pause lasts; what plotly
    draws from a table, and the errors pandas and plotly raise on a column
    that is not float64 or on a negative marker size; and the text [to_csv]
    writes for a cell. *)

From Stdlib Require Import ZArith List String Ascii Bool Lia Floats DecimalString.
From Stdlib Require Import Permutation Sorted.
Import ListNotations.

Set Warnings "-inexact-float".

Local Open Scope string_scope.
Local Open Scope list_scope.

(** ** Floats as Python has them *)

Module Py.

(** [int] to [float], as numpy does when a float64 column meets a Python int.
    Exact on the values of the slider (0 .. 100). *)
Definition float_of_int (z : Z) : float :=
  if (z <? 0)%Z then PrimFloat.opp (PrimFloat.of_uint63 (Uint63.of_Z (- z)))
  else PrimFloat.of_uint63 (Uint63.of_Z z).

Definition string_of_nat_Z (z : Z) : string :=
  NilZero.string_of_uint (N.to_uint (Z.to_N z)).

(** Tenths of the absolute value [m * 2^e], rounded half to even: what
    [format(x, '.1f')] prints, without the decimal point. *)
Definition round_tenths (m : positive) (e : Z) : Z :=
  if (0 <=? e)%Z then Zpos m * 2 ^ e * 10
  else
    let num := (Zpos m * 10)%Z in
    let den := (2 ^ (- e))%Z in
    let q := (num / den)%Z in
    let r := (num mod den)%Z in
    match (2 * r ?= den)%Z with
    | Lt => q
    | Gt => (q + 1)%Z
    | Eq => if Z.even q then q else (q + 1)%Z
    end.

Definition digits_1f (t : Z) : string :=
  string_of_nat_Z (t / 10) ++ "." ++ string_of_nat_Z (t mod 10).

(** [format(x, '.1f')] when [plus] is false, [format(x, '+.1f')] when true.
    The sign of a NaN is not printed; a negative value that rounds to zero
    keeps its sign. *)
Definition format_1f (plus : bool) (x : float) : string :=
  let pos := if plus then "+" else EmptyString in
  match Prim2SF x with
  | S754_nan => pos ++ "nan"
  | S754_infinity s => (if s then "-" else pos) ++ "inf"
  | S754_zero s => (if s then "-" else pos) ++ "0.0"
  | S754_finite s m e => (if s then "-" else pos) ++ digits_1f (round_tenths m e)
  end.

(** A float64 column of a DataFrame. *)
Definition Series := list float.

Definition notna (x : float) : bool := negb (PrimFloat.is_nan x).

Definition fmax (a b : float) : float := if PrimFloat.ltb a b then b else a.

(** [Series.max()]: missing values are skipped; NaN when nothing is left. *)
Definition max (col : Series) : float :=
  match filter notna col with
  | [] => PrimFloat.nan
  | x :: xs => fold_left fmax xs x
  end.

(** Adding the values of [l] to [acc], one after the other. *)
Definition add_all (acc : float) (l : list float) : float :=
  fold_left PrimFloat.add l acc.

(** The unrolled loop of numpy's sum: while eight values are left, they are
    added to the eight running sums [r], each to its own. *)
Fixpoint add_lanes (fuel : nat) (r l : list float) : list float * list float :=
  match fuel with
  | O => (r, l)
  | S fuel' =>
      if (8 <=? List.length l)%nat
      then add_lanes fuel'
             (map (fun p => PrimFloat.add (fst p) (snd p)) (combine r (firstn 8 l)))
             (skipn 8 l)
      else (r, l)
  end.

(** A block of 8 to 128 values: eight running sums, added up in pairs, then
    the values left over. *)
Definition sum_block (l : list float) : float :=
  match add_lanes (List.length l) (firstn 8 l) (skipn 8 l) with
  | ([r0; r1; r2; r3; r4; r5; r6; r7], rest) =>
      add_all (((r0 + r1) + (r2 + r3)) + ((r4 + r5) + (r6 + r7)))%float rest
  | (_, _) => add_all PrimFloat.zero l
  end.

(** numpy's pairwise summation: fewer than 8 values are added from left to
    right, up to 128 as a block, more are split in two parts (the first a
    multiple of 8 long) that are summed apart. *)
Fixpoint pairwise_sum (fuel : nat) (l : list float) : float :=
  let n := List.length l in
  if (n <? 8)%nat then add_all PrimFloat.zero l
  else if (n <=? 128)%nat then sum_block l
  else
    match fuel with
    | O => sum_block l
    | S fuel' =>
        let n2 := (n / 2 - (n / 2) mod 8)%nat in
        PrimFloat.add (pairwise_sum fuel' (firstn n2 l)) (pairwise_sum fuel' (skipn n2 l))
    end.

(** [ndarray.sum()] of a float64 array. *)
Definition sum (col : Series) : float :=
  PrimFloat.add PrimFloat.zero (pairwise_sum (List.length col) col).

(** [Series.mean()]: the missing values are replaced by 0, the column is
    summed as numpy does and divided by the count of the values that are not
    missing; NaN when there is none. *)
Definition mean (col : Series) : float :=
  let count := List.length (filter notna col) in
  match count with
  | O => PrimFloat.nan
  | S _ =>
      PrimFloat.div (sum (map (fun x => if notna x then x else PrimFloat.zero) col))
        (float_of_int (Z.of_nat count))
  end.

(** One step of the compensated sum of pandas' group mean: [compensation]
    holds what the last additions rounded away, and is reset when it is not a
    number. *)
Definition kahan_add (acc : float * float) (val : float) : float * float :=
  let (sumx, compensation) := acc in
  let y := PrimFloat.sub val compensation in
  let t := PrimFloat.add sumx y in
  let c := PrimFloat.sub (PrimFloat.sub t sumx) y in
  (t, if PrimFloat.is_nan c then PrimFloat.zero else c).

(** [groupby(...)[col].mean()] on the values of one group, in row order: the
    compensated sum of the values that are not missing over their count; NaN
    when there is none. *)
Definition group_mean (col : Series) : float :=
  match filter notna col with
  | [] => PrimFloat.nan
  | xs =>
      PrimFloat.div (fst (fold_left kahan_add xs (PrimFloat.zero, PrimFloat.zero)))
        (float_of_int (Z.of_nat (List.length xs)))
  end.

(** Insertion sort; [before y x] says that [y] must come ahead of [x].  Rows
    that neither must precede the other keep their order. *)
Fixpoint insert_by {A} (before : A -> A -> bool) (x : A) (l : list A) : list A :=
  match l with
  | [] => [x]
  | y :: l' => if before y x then y :: insert_by before x l' else x :: y :: l'
  end.

Definition sort_by {A} (before : A -> A -> bool) (l : list A) : list A :=
  fold_right (insert_by before) [] l.

(** [df.sort_values(key, ascending=...)]: rows with a missing key go last. *)
Definition sort_values {A} (key : A -> float) (ascending : bool) (df : list A) : list A :=
  sort_by (fun y x => if ascending then PrimFloat.ltb (key y) (key x)
                      else PrimFloat.ltb (key x) (key y))
          (filter (fun r => notna (key r)) df)
  ++ filter (fun r => negb (notna (key r))) df.

(** [df.nlargest(n, key)]: the [n] rows with the largest keys, largest
    first, ties in row order. *)
Definition nlargest {A} (n : nat) (key : A -> float) (df : list A) : list A :=
  firstn n (sort_values key false df).

(** [sorted(set(keys))], the group keys of a [groupby]. *)
Definition sorted_unique (keys : list string) : list string :=
  sort_by String.ltb (nodup string_dec keys).

End Py.

(** ** Constants *)

Definition SEASONS : list string :=
  [ "2014-15"; "2015-16"; "2016-17"; "2017-18"; "2018-19";
    "2019-20"; "2020-21"; "2021-22"; "2022-23"; "2023-24" ].

(** The dict [CHAMPIONS_DATA], as the list of its items in insertion order:
    the pipeline only uses it through [list(CHAMPIONS_DATA.items())]. *)
Definition CHAMPIONS_DATA : list (string * string) :=
  [ ("2014-15", "Golden State Warriors");
    ("2015-16", "Cleveland Cavaliers");
    ("2016-17", "Golden State Warriors");
    ("2017-18", "Golden State Warriors");
    ("2018-19", "Toronto Raptors");
    ("2019-20", "Los Angeles Lakers");
    ("2020-21", "Milwaukee Bucks");
    ("2021-22", "Golden State Warriors");
    ("2022-23", "Denver Nuggets");
    ("2023-24", "Boston Celtics") ].

(** ** Data model *)

(** A row of the provider's per-game table, restricted to the columns that
    survive the projection [df[keep]]. *)
Record TeamStats := mkTeamStats
  { TEAM_NAME : string;
    GP : Z;
    W : Z;
    L : Z;
    FG3M : float;
    FG3A : float;
    FG3_PCT : float;
    PTS : float }.

(** A row once [fetch_team_stats_for_season] has set its [SEASON] column. *)
Record SeasonStats := mkSeasonStats
  { SEASON : string;
    team_stats :> TeamStats }.

(** ... with the four derived columns, *)
Record Derived := mkDerived
  { season_stats :> SeasonStats;
    THREES_PER_GAME : float;
    THREES_ATT_PER_GAME : float;
    POINTS_FROM_3 : float;
    PERCENT_POINTS_3 : float }.

(** ... with the column joined from the champions table ([None] is the
    missing value a left join leaves), *)
Record Merged := mkMerged
  { derived :> Derived;
    CHAMPION_TEAM : option string }.

(** ... and with the flag: a row of the dataset. *)
Record Row := mkRow
  { merged :> Merged;
    IS_CHAMPION : bool }.

Definition Frame := list TeamStats.
Definition Dataset := list Row.

(** ** Effects: provider calls, pauses and exceptions *)

Inductive Exn : Type :=
| ProviderError (msg : string)
| IndexError
| KeyError (key : string).

Inductive Event : Type :=
| Request (season per_mode_detailed : string)
| Sleep (seconds : float).

Definition Log := list Event.

(** The remote endpoint: what
    [LeagueDashTeamStats(season, per_mode_detailed).get_data_frames()[0]]
    answers, given everything that happened before.  Depending on the log
    lets a provider fail on one request and answer the next. *)
Definition Provider := Log -> string -> Exn + Frame.

(** Computations that read and extend the log and may raise. *)
Definition M (A : Type) : Type := Log -> (Exn + A) * Log.

Definition ret {A} (a : A) : M A := fun log => (inr a, log).

Definition bind {A B} (m : M A) (k : A -> M B) : M B :=
  fun log =>
    match m log with
    | (inl e, log1) => (inl e, log1)
    | (inr a, log1) => k a log1
    end.

Definition lift {A} (r : Exn + A) : M A := fun log => (r, log).

Declare Scope m_scope.
Delimit Scope m_scope with m.
Notation "x <- c ;; k" := (bind c (fun x => k))
  (at level 61, c at next level, right associativity) : m_scope.
Notation "c ;;; k" := (bind c (fun _ => k))
  (at level 61, right associativity) : m_scope.

Definition call_provider (provider : Provider) (season per_mode : string) : M Frame :=
  fun log => (provider log season, log ++ [Request season per_mode]).

Definition sleep (seconds : float) : M unit :=
  fun log => (inr tt, log ++ [Sleep seconds]).

(** ** The pipeline *)

Section Pipeline.

Variable provider : Provider.

Definition fetch_team_stats_for_season (season : string) : M (list SeasonStats) :=
  (df <- call_provider provider season "PerGame" ;;
   ret (map (mkSeasonStats season) df))%m.

(** The loop of [load_dataset] over the seasons still to fetch; [frames] is
    the list it appends to. *)
Fixpoint fetch_seasons (seasons : list string) (frames : list (list SeasonStats))
  : M (list (list SeasonStats)) :=
  match seasons with
  | [] => ret frames
  | s :: rest =>
      (df_s <- fetch_team_stats_for_season s ;;
       sleep 0.35 ;;;
       fetch_seasons rest (frames ++ [df_s]))%m
  end.

(** Lines 128-134: the frames of all seasons, concatenated. *)
Definition aggregate (seasons : list string) : M (list SeasonStats) :=
  (frames <- fetch_seasons seasons [] ;;
   ret (List.concat frames))%m.

End Pipeline.

(** [fetched provider log seasons frames log']: fetching [seasons] one after
    the other from [log], pausing after each, succeeds with [frames], one per
    season, and leaves [log']. *)
Inductive fetched (provider : Provider)
  : Log -> list string -> list (list SeasonStats) -> Log -> Prop :=
| fetched_nil log : fetched provider log [] [] log
| fetched_cons log s df_s log1 log2 rest frames log' :
    fetch_team_stats_for_season provider s log = (inr df_s, log1) ->
    sleep 0.35 log1 = (inr tt, log2) ->
    fetched provider log2 rest frames log' ->
    fetched provider log (s :: rest) (df_s :: frames) log'.

Definition with_FG3_PCT (r : SeasonStats) (pct : float) : SeasonStats :=
  mkSeasonStats (SEASON r)
    (mkTeamStats (TEAM_NAME r) (GP r) (W r) (L r) (FG3M r) (FG3A r) pct (PTS r)).

(** Lines 139-141. *)
Definition normalize_fg3_pct (df : list SeasonStats) : list SeasonStats :=
  if PrimFloat.leb (Py.max (map (fun r : SeasonStats => FG3_PCT r) df)) 1
  then map (fun r : SeasonStats => with_FG3_PCT r (FG3_PCT r * 100)%float) df
  else df.

(** Lines 143-147. *)
Definition derive_row (r : SeasonStats) : Derived :=
  let POINTS_FROM_3 := (FG3M r * 3)%float in
  mkDerived r (FG3M r) (FG3A r) POINTS_FROM_3 ((POINTS_FROM_3 / PTS r) * 100)%float.

Definition derive_metrics (df : list SeasonStats) : list Derived :=
  map derive_row df.

(** [df.merge(champs_df, on="SEASON", how="left")]: every row of [df], in
    order, once per row of [champs_df] with the same season, or once with a
    missing champion when there is none. *)
Definition merge_left (df : list Derived) (champs_df : list (string * string))
  : list Merged :=
  flat_map
    (fun r : Derived =>
       match filter (fun c => String.eqb (fst c) (SEASON r)) champs_df with
       | [] => [mkMerged r None]
       | matches => map (fun c => mkMerged r (Some (snd c))) matches
       end)
    df.

(** [df["TEAM_NAME"] == df["CHAMPION_TEAM"]]: comparing with a missing value
    gives False. *)
Definition flag_champion (r : Merged) : Row :=
  mkRow r
    match CHAMPION_TEAM r with
    | Some c => String.eqb (TEAM_NAME r) c
    | None => false
    end.

(** Lines 136-153, on the concatenated table. *)
Definition derive_dataset (champions : list (string * string))
  (df : list SeasonStats) : Dataset :=
  map flag_champion (merge_left (derive_metrics (normalize_fg3_pct df)) champions).

(** The dataset row of a table row joined with [champion]. *)
Definition dataset_row (r : SeasonStats) (champion : option string) : Row :=
  flag_champion (mkMerged (derive_row r) champion).

(** What identifies a row: its season and its team. *)
Definition season_team (r : SeasonStats) : string * string := (SEASON r, TEAM_NAME r).

Definition load_dataset_with (provider : Provider) (seasons : list string)
  (champions : list (string * string)) : M Dataset :=
  (df <- aggregate provider seasons ;;
   ret (derive_dataset champions df))%m.

Definition load_dataset (provider : Provider) : M Dataset :=
  load_dataset_with provider SEASONS CHAMPIONS_DATA.

(** ** Views *)

Definition Result (A : Type) : Type := (Exn + A)%type.

Definition bindR {A B} (r : Result A) (k : A -> Result B) : Result B :=
  match r with
  | inl e => inl e
  | inr a => k a
  end.

Declare Scope r_scope.
Delimit Scope r_scope with r.
Notation "x <- c ;; k" := (bindR c (fun x => k))
  (at level 61, c at next level, right associativity) : r_scope.

(** [df.iloc[0]] raises on an empty table. *)
Definition iloc0 {A} (df : list A) : Result A :=
  match df with
  | [] => inl IndexError
  | r :: _ => inr r
  end.

Definition empty {A} (df : list A) : bool :=
  match df with
  | [] => true
  | _ :: _ => false
  end.

(** [st.metric(label, value, delta)]. *)
Record Metric := mkMetric
  { label : string;
    value : string;
    delta : option string }.

Definition render_metrics (df_filtered : Dataset) : Result (list Metric) :=
  let avg_att := Py.mean (map (fun r : Row => THREES_ATT_PER_GAME r) df_filtered) in
  let avg_pct := Py.mean (map (fun r : Row => FG3_PCT r) df_filtered) in
  let champ_row := firstn 1 (filter IS_CHAMPION df_filtered) in
  let c1 := mkMetric "Tentativas 3PT/Jogo" (Py.format_1f false avg_att) (Some "Liga") in
  let c2 := mkMetric "3PT% médio" (Py.format_1f false avg_pct ++ "%") (Some "Liga") in
  (c3 <- (if negb (empty champ_row) then
            r <- iloc0 champ_row ;;
            let champ_pct := FG3_PCT (r : Row) in
            inr (mkMetric "Campeão — 3PT%" (Py.format_1f false champ_pct ++ "%")
                   (Some (Py.format_1f true (champ_pct - avg_pct)%float ++ "%")%string))
          else inr (mkMetric "Campeão — 3PT%" "N/A" None)) ;;
   c4 <- (if negb (empty champ_row) then
            r <- iloc0 champ_row ;;
            let p3 := PERCENT_POINTS_3 (r : Row) in
            inr (mkMetric "% pontos do 3PT" (Py.format_1f false p3 ++ "%") (Some "Campeão"))
          else inr (mkMetric "% pontos do 3PT" "N/A" None)) ;;
   inr [c1; c2; c3; c4])%r.

(** A chart: its title and the rows of the table it draws. *)
Record Figure (A : Type) := mkFigure
  { title : string;
    marks : list A }.
Arguments mkFigure {A}.
Arguments title {A}.
Arguments marks {A}.

Record Bar := mkBar
  { bar_x : float;
    bar_y : string;
    bar_text : float;
    bar_color : bool }.

Definition plot_top_bar (df_filtered : Dataset) : Figure Bar :=
  let top :=
    Py.sort_values (fun r : Row => THREES_PER_GAME r) true
      (Py.nlargest 10 (fun r : Row => THREES_PER_GAME r) df_filtered) in
  mkFigure "Top 10 — 3PT por jogo"
    (map (fun r : Row => mkBar (THREES_PER_GAME r) (TEAM_NAME r) (THREES_PER_GAME r)
                           (IS_CHAMPION r)) top).

Record Point := mkPoint
  { pt_x : float;
    pt_y : float;
    pt_size : Z;
    pt_color : bool;
    pt_hover_name : string }.

Definition plot_scatter (df_filtered : Dataset) : Figure Point :=
  mkFigure "Volume vs Eficiência — Tentativas 3PT/Jogo x 3PT%"
    (map (fun r : Row => mkPoint (THREES_ATT_PER_GAME r) (FG3_PCT r) (W r)
                           (IS_CHAMPION r) (TEAM_NAME r)) df_filtered).

Record LinePoint := mkLinePoint
  { lp_x : string;
    lp_y : float;
    lp_color : string }.

Definition plot_evolution (df_all : Dataset) : Figure LinePoint :=
  let league :=
    map (fun s =>
           mkLinePoint s
             (Py.group_mean (map (fun r : Row => THREES_ATT_PER_GAME r)
                               (filter (fun r : Row => String.eqb (SEASON r) s) df_all)))
             "Liga (média)")
        (Py.sorted_unique (map (fun r : Row => SEASON r) df_all)) in
  let champs :=
    map (fun r : Row => mkLinePoint (SEASON r) (THREES_ATT_PER_GAME r) "Campeão")
        (filter IS_CHAMPION df_all) in
  mkFigure "Evolução — Tentativas de 3 por jogo (Liga vs Campeão)" (league ++ champs).

(** ** The table and its export *)

Inductive Cell : Type :=
| CStr (s : string)
| CInt (z : Z)
| CFloat (x : float)
| CBool (b : bool)
| CNull.

Record Table := mkTable
  { columns : list string;
    records : list (list Cell) }.

(** The columns of a dataset row under their names. *)
Definition cells (r : Row) : list (string * Cell) :=
  [ ("SEASON", CStr (SEASON r));
    ("TEAM_NAME", CStr (TEAM_NAME r));
    ("GP", CInt (GP r));
    ("W", CInt (W r));
    ("L", CInt (L r));
    ("FG3M", CFloat (FG3M r));
    ("FG3A", CFloat (FG3A r));
    ("FG3_PCT", CFloat (FG3_PCT r));
    ("PTS", CFloat (PTS r));
    ("THREES_PER_GAME", CFloat (THREES_PER_GAME r));
    ("THREES_ATT_PER_GAME", CFloat (THREES_ATT_PER_GAME r));
    ("POINTS_FROM_3", CFloat (POINTS_FROM_3 r));
    ("PERCENT_POINTS_3", CFloat (PERCENT_POINTS_3 r));
    ("CHAMPION_TEAM", match CHAMPION_TEAM r with Some c => CStr c | None => CNull end);
    ("IS_CHAMPION", CBool (IS_CHAMPION r)) ].

Fixpoint lookup {V} (key : string) (items : list (string * V)) : option V :=
  match items with
  | [] => None
  | (k, v) :: rest => if String.eqb k key then Some v else lookup key rest
  end.

Definition all_columns : list string :=
  [ "SEASON"; "TEAM_NAME"; "GP"; "W"; "L"; "FG3M"; "FG3A"; "FG3_PCT"; "PTS";
    "THREES_PER_GAME"; "THREES_ATT_PER_GAME"; "POINTS_FROM_3"; "PERCENT_POINTS_3";
    "CHAMPION_TEAM"; "IS_CHAMPION" ].

(** [df[cols]]: a KeyError for a name that is not a column. *)
Fixpoint check_columns (cols : list string) : Result unit :=
  match cols with
  | [] => inr tt
  | c :: rest =>
      if existsb (String.eqb c) all_columns then check_columns rest
      else inl (KeyError c)
  end.

Definition select (cols : list string) (df : Dataset) : Result Table :=
  (_ <- check_columns cols ;;
   inr (mkTable cols
          (map (fun r => map (fun c => match lookup c (cells r) with
                                       | Some v => v
                                       | None => CNull
                                       end) cols) df)))%r.

(** [df.rename(columns=mapping)]. *)
Definition rename (mapping : list (string * string)) (t : Table) : Table :=
  mkTable (map (fun c => match lookup c mapping with
                         | Some c' => c'
                         | None => c
                         end) (columns t))
          (records t).

(** [st.download_button(label, data, file_name, mime)]; [data] is the table
    that [to_csv(index=False)] writes, a header line and one line per row. *)
Record Download := mkDownload
  { button : string;
    data : Table;
    file_name : string;
    mime : string }.

(** ** The page *)

Record Inputs := mkInputs
  { selected_season : string;
    selected_teams : list string;
    min_fg3_pct : Z }.

Record Page := mkPage
  { metrics : list Metric;
    top_bar : Figure Bar;
    scatter : Figure Point;
    evolution : Figure LinePoint;
    dataframe : Table;
    download : Download }.

Definition season_rows (df : Dataset) (selected_season : string) : Dataset :=
  filter (fun r : Row => String.eqb (SEASON r) selected_season) df.

(** Line 290. *)
Definition filter_teams (selected_teams : list string) (df_season : Dataset) : Dataset :=
  filter (fun r : Row => existsb (String.eqb (TEAM_NAME r)) selected_teams) df_season.

(** Line 291: [FG3_PCT >= min_fg3_pct]. *)
Definition filter_min_pct (min_fg3_pct : Z) (df : Dataset) : Dataset :=
  filter (fun r : Row => PrimFloat.leb (Py.float_of_int min_fg3_pct) (FG3_PCT r)) df.

Definition filter_dataset (df : Dataset) (ui : Inputs) : Dataset :=
  filter_min_pct (min_fg3_pct ui)
    (filter_teams (selected_teams ui) (season_rows df (selected_season ui))).

Definition display_cols : list string :=
  [ "TEAM_NAME"; "W"; "L"; "THREES_PER_GAME"; "THREES_ATT_PER_GAME";
    "FG3_PCT"; "PERCENT_POINTS_3"; "IS_CHAMPION" ].

Definition display_names : list (string * string) :=
  [ ("TEAM_NAME", "Time");
    ("W", "Vitórias");
    ("L", "Derrotas");
    ("THREES_PER_GAME", "3PT/Jogo");
    ("THREES_ATT_PER_GAME", "Tentativas 3PT/Jogo");
    ("FG3_PCT", "3PT %");
    ("PERCENT_POINTS_3", "% Pontos do 3PT");
    ("IS_CHAMPION", "Campeão") ].

Definition export (df_filtered : Dataset) (selected_season : string)
  : Result (Table * Download) :=
  (selected <- select display_cols df_filtered ;;
   let df_display := rename display_names selected in
   inr (df_display,
        mkDownload "⬇️ Baixar CSV da temporada" df_display
          ("nba_stats_" ++ selected_season ++ ".csv") "text/csv"))%r.

(** The body of [main] from line 282 on, for a loaded dataset and the values
    of the three sidebar widgets. *)
Definition render_page (df : Dataset) (ui : Inputs) : Result Page :=
  let df_filtered := filter_dataset df ui in
  (cards <- render_metrics df_filtered ;;
   let bar := plot_top_bar df_filtered in
   let sc := plot_scatter df_filtered in
   let evo := plot_evolution df in
   tab3 <- export df_filtered (selected_season ui) ;;
   inr (mkPage cards bar sc evo (fst tab3) (snd tab3)))%r.

Definition main (provider : Provider) (ui : Inputs) : M Page :=
  (df <- load_dataset provider ;;
   lift (render_page df ui))%m.

(** ** The sidebar widgets *)

(** Line 278: [sorted(df["SEASON"].unique(), reverse=True)]. *)
Definition season_options (df : Dataset) : list string :=
  Py.sort_by (fun y x => String.ltb x y)
    (nodup string_dec (map (fun r : Row => SEASON r) df)).

(** Line 283: [sorted(df_season["TEAM_NAME"].unique())]. *)
Definition team_options (df_season : Dataset) : list string :=
  Py.sorted_unique (map (fun r : Row => TEAM_NAME r) df_season).

(** What the three widgets hold before the user touches them: the first
    season option ([index=0]), every team of that season ([default=teams])
    and the slider at 0.  Nothing when there is no season to offer. *)
Definition default_inputs (df : Dataset) : option Inputs :=
  match season_options df with
  | [] => None
  | selected_season :: _ =>
      Some (mkInputs selected_season (team_options (season_rows df selected_season)) 0)
  end.

(** ** Sample data *)

Module Samples.

Local Open Scope float_scope.

Definition celtics_24 : TeamStats :=
  mkTeamStats "Boston Celtics" 82 64 18 16.5 42.5 0.388 120.6.
Definition nuggets_24 : TeamStats :=
  mkTeamStats "Denver Nuggets" 82 57 25 11.7 31.2 0.374 114.9.
Definition nuggets_23 : TeamStats :=
  mkTeamStats "Denver Nuggets" 82 53 29 11.8 31.2 0.379 115.8.
Definition celtics_23 : TeamStats :=
  mkTeamStats "Boston Celtics" 82 57 25 16.0 42.6 0.377 117.9.

(** A provider that answers two teams for the last two seasons and an empty
    table for the others. *)
Definition provider : Provider :=
  fun _ season =>
    if String.eqb season "2022-23" then inr [nuggets_23; celtics_23]
    else if String.eqb season "2023-24" then inr [celtics_24; nuggets_24]
    else inr [].

(** A provider that fails until it has been asked once. *)
Definition flaky_provider : Provider :=
  fun log season =>
    match log with
    | [] => inl (ProviderError "timeout")
    | _ :: _ => provider log season
    end.

Definition fractions_table : list SeasonStats :=
  [ mkSeasonStats "2023-24" celtics_24; mkSeasonStats "2023-24" nuggets_24 ].

Definition tiny_table : list SeasonStats :=
  [ mkSeasonStats "2023-24" (mkTeamStats "Boston Celtics" 82 64 18 0.1 20 0.005 120.6) ].

Definition percent (t : TeamStats) : TeamStats :=
  mkTeamStats (TEAM_NAME t) (GP t) (W t) (L t) (FG3M t) (FG3A t) (FG3_PCT t * 100) (PTS t).

Definition celtics_row : Row :=
  dataset_row (mkSeasonStats "2023-24" (percent celtics_24)) (Some "Boston Celtics").
Definition nuggets_row : Row :=
  dataset_row (mkSeasonStats "2023-24" (percent nuggets_24)) (Some "Boston Celtics").
Definition nuggets_23_row : Row :=
  dataset_row (mkSeasonStats "2022-23" (percent nuggets_23)) (Some "Denver Nuggets").

(** A second row for the champion, as a provider that repeats a team would
    leave in the dataset. *)
Definition celtics_again : Row :=
  dataset_row
    (mkSeasonStats "2023-24" (mkTeamStats "Boston Celtics" 82 64 18 10.0 30.0 33.3 100.0))
    (Some "Boston Celtics").



Definition season_24 : Dataset := [celtics_row; nuggets_row].
Definition seasons_23_24 : Dataset := [nuggets_23_row; celtics_row; nuggets_row].
Definition two_champions : Dataset := [nuggets_row; celtics_row; celtics_again].

Definition everything (season : string) : Inputs :=
  mkInputs season ["Boston Celtics"; "Denver Nuggets"] 0.

(** The table and the log of a run of [aggregate] on [provider]. *)
Definition aggregated : list SeasonStats :=
  match fst (aggregate provider SEASONS []) with
  | inr table => table
  | inl _ => []
  end.

Definition aggregated_log : Log := snd (aggregate provider SEASONS []).

Definition loaded : Dataset :=
  match fst (load_dataset provider []) with
  | inr df => df
  | inl _ => []
  end.

(** A provider that answers the first two seasons and fails on the third. *)
Definition failing_provider : Provider :=
  fun _ season =>
    if String.eqb season "2016-17" then inl (ProviderError "HTTP 500")
    else inr [celtics_24].

(** A row whose 3PT% is missing. *)
Definition missing_pct_row : Row :=
  dataset_row
    (mkSeasonStats "2023-24" (mkTeamStats "Miami Heat" 82 46 36 12.5 33.7 nan 110.1))
    (Some "Boston Celtics").

End Samples.

(** * Properties *)

(** ** The order of binary64 values

    [PrimFloat.ltb], [leb] and [eqb] are specified through [SFcompare] on
    [Prim2SF]; the facts below are the order laws the pipeline relies on. *)

Module FloatOrder.

Local Open Scope float_scope.

Ltac cmp_cases :=
  repeat match goal with
    | |- context [PosDef.Pos.compare_cont Eq ?x ?y] =>
        change (PosDef.Pos.compare_cont Eq x y) with (Pos.compare x y) in *
    | H : context [PosDef.Pos.compare_cont Eq ?x ?y] |- _ =>
        change (PosDef.Pos.compare_cont Eq x y) with (Pos.compare x y) in *
    | |- context [(?x ?= ?y)%Z] => destruct (Z.compare_spec x y)
    | |- context [(?x ?= ?y)%positive] => destruct (Pos.compare_spec x y)
    | H : context [(?x ?= ?y)%Z] |- _ => destruct (Z.compare_spec x y)
    | H : context [(?x ?= ?y)%positive] |- _ => destruct (Pos.compare_spec x y)
    end.

Ltac sf_cases a b c :=
  destruct a as [[]|[]| |[] ? ?], b as [[]|[]| |[] ? ?], c as [[]|[]| |[] ? ?];
  simpl; try discriminate; try reflexivity.

Lemma SFcompare_antisym (a b : spec_float) :
  SFcompare b a = option_map CompOpp (SFcompare a b).
Proof.
  destruct a as [[]|[]| |[] ma ea], b as [[]|[]| |[] mb eb]; simpl; try reflexivity;
    change (PosDef.Pos.compare_cont Eq mb ma) with (Pos.compare mb ma);
    change (PosDef.Pos.compare_cont Eq ma mb) with (Pos.compare ma mb);
    rewrite (Z.compare_antisym ea eb), (Pos.compare_antisym ma mb);
    destruct (ea ?= eb)%Z; simpl; try reflexivity;
    destruct (ma ?= mb)%positive; reflexivity.
Qed.

Lemma SFcompare_lt_trans (a b c : spec_float) :
  SFcompare a b = Some Lt -> SFcompare b c = Some Lt -> SFcompare a c = Some Lt.
Proof.
  sf_cases a b c; intros H1 H2; cmp_cases; cbn [CompOpp] in *;
    try discriminate; try reflexivity; subst; lia.
Qed.

Lemma SFcompare_eq_compat (a b c : spec_float) :
  SFcompare a b = Some Eq -> SFcompare c a = SFcompare c b.
Proof.
  sf_cases a b c; intros H1; cmp_cases; cbn [CompOpp] in *;
    try discriminate; try reflexivity; subst; lia.
Qed.

Lemma SFcompare_refl (a : spec_float) : a <> S754_nan -> SFcompare a a = Some Eq.
Proof.
  destruct a as [[]|[]| |[] m e]; simpl; try reflexivity; try congruence; intros _;
    change (PosDef.Pos.compare_cont Eq m m) with (Pos.compare m m);
    rewrite Z.compare_refl, Pos.compare_refl; reflexivity.
Qed.

Lemma SFcompare_None (a b : spec_float) :
  SFcompare a b = None -> a = S754_nan \/ b = S754_nan.
Proof.
  destruct a as [[]|[]| |[] ma ea], b as [[]|[]| |[] mb eb]; simpl;
    try discriminate; auto.
Qed.

Lemma notna_spec (x : float) : Py.notna x = true <-> Prim2SF x <> S754_nan.
Proof.
  unfold Py.notna, is_nan. rewrite negb_involutive, eqb_spec. unfold SFeqb. split.
  - intros H E. rewrite E in H. discriminate.
  - intros H. rewrite (SFcompare_refl _ H). reflexivity.
Qed.

Lemma ltb_Lt (a b : float) :
  (a <? b) = true <-> SFcompare (Prim2SF a) (Prim2SF b) = Some Lt.
Proof.
  rewrite ltb_spec. unfold SFltb.
  destruct (SFcompare (Prim2SF a) (Prim2SF b)) as [[]|]; split; congruence.
Qed.

Lemma ltb_notna_r (a b : float) : (a <? b) = true -> Py.notna b = true.
Proof.
  rewrite ltb_Lt, notna_spec. intros H E. rewrite E in H.
  destruct (Prim2SF a) as [[]|[]| |[] ? ?]; discriminate.
Qed.

Lemma ltb_trans (a b c : float) : (a <? b) = true -> (b <? c) = true -> (a <? c) = true.
Proof. rewrite !ltb_Lt. apply SFcompare_lt_trans. Qed.

(** Of two values that are not missing, one is below the other or they
    compare equal. *)
Lemma ltb_false_inv (a b : float) :
  Py.notna a = true -> Py.notna b = true -> (a <? b) = false ->
  (b <? a) = true \/ SFcompare (Prim2SF b) (Prim2SF a) = Some Eq.
Proof.
  rewrite !notna_spec, ltb_Lt. intros Ha Hb H.
  assert (Hlt : SFcompare (Prim2SF a) (Prim2SF b) <> Some Lt).
  { intros E. rewrite ltb_spec in H. unfold SFltb in H. rewrite E in H. discriminate. }
  rewrite (SFcompare_antisym (Prim2SF a) (Prim2SF b)).
  destruct (SFcompare (Prim2SF a) (Prim2SF b)) as [[]|] eqn:E; simpl; auto.
  - congruence.
  - destruct (SFcompare_None _ _ E); contradiction.
Qed.

Lemma ltb_le_trans (a b c : float) :
  (a <? b) = true -> Py.notna c = true -> (c <? b) = false -> (a <? c) = true.
Proof.
  intros Hab Hc Hcb.
  destruct (ltb_false_inv c b Hc (ltb_notna_r _ _ Hab) Hcb) as [H | H].
  - exact (ltb_trans _ _ _ Hab H).
  - rewrite ltb_Lt in *. rewrite <- (SFcompare_eq_compat _ _ (Prim2SF a) H). exact Hab.
Qed.

Lemma ltb_leb_false (a b : float) : (a <? b) = true -> (b <=? a) = false.
Proof.
  rewrite ltb_Lt, leb_spec. unfold SFleb. intros H.
  rewrite (SFcompare_antisym (Prim2SF a) (Prim2SF b)), H. reflexivity.
Qed.


(** The largest value of a column is above every bound one of its values is
    above. *)
Lemma fmax_above (bound a b : float) :
  Py.notna a = true -> Py.notna b = true ->
  (bound <? a) = true \/ (bound <? b) = true ->
  (bound <? Py.fmax a b) = true.
Proof.
  intros Ha Hb H. unfold Py.fmax. destruct (a <? b) eqn:E.
  - destruct H as [H | H]; [exact (ltb_trans _ _ _ H E) | exact H].
  - destruct H as [H | H]; [exact H | exact (ltb_le_trans _ _ _ H Ha E)].
Qed.

Lemma fmax_notna (a b : float) :
  Py.notna a = true -> Py.notna b = true -> Py.notna (Py.fmax a b) = true.
Proof. intros Ha Hb. unfold Py.fmax. destruct (a <? b); assumption. Qed.

Lemma fold_fmax_above (bound : float) (xs : list float) :
  forall x,
    Py.notna x = true -> Forall (fun y => Py.notna y = true) xs ->
    (bound <? x) = true \/ Exists (fun y => (bound <? y) = true) xs ->
    (bound <? fold_left Py.fmax xs x) = true.
Proof.
  induction xs as [| y ys IH]; intros x Hx Hxs H; simpl.
  - destruct H as [H | H]; [exact H | inversion H].
  - inversion Hxs as [| ? ? Hy Hys]; subst.
    apply IH; [apply fmax_notna; assumption | assumption |].
    destruct H as [H | H].
    + left. apply fmax_above; auto.
    + inversion H as [? ? H0 | ? ? H0]; subst.
      * left. apply fmax_above; auto.
      * right. exact H0.
Qed.

Lemma max_above (bound v : float) (col : Py.Series) :
  In v col -> (bound <? v) = true -> (bound <? Py.max col) = true.
Proof.
  intros Hin Hv. unfold Py.max.
  assert (Hin' : In v (filter Py.notna col)).
  { apply filter_In. split; [exact Hin | exact (ltb_notna_r _ _ Hv)]. }
  assert (Hall : Forall (fun y => Py.notna y = true) (filter Py.notna col)).
  { apply Forall_forall. intros y Hy. apply filter_In in Hy. tauto. }
  destruct (filter Py.notna col) as [| x xs]; [destruct Hin' |].
  inversion Hall as [| ? ? Hx Hxs]; subst.
  apply fold_fmax_above; try assumption.
  destruct Hin' as [-> | Hin']; [left; exact Hv | right].
  apply Exists_exists. exists v. split; assumption.
Qed.

End FloatOrder.

(** ** Percentage normalization *)

Section Normalization.

Local Open Scope float_scope.

Lemma normalize_fg3_pct_fixed (df : list SeasonStats) :
  (Py.max (map (fun r : SeasonStats => FG3_PCT r) df) <=? 1) = false ->
  normalize_fg3_pct df = df.
Proof. intros H. unfold normalize_fg3_pct. rewrite H. reflexivity. Qed.

(** C2: normalizing a second time changes nothing when the normalized FG3_PCT
    column holds a value greater than 1. *)
Theorem normalize_fg3_pct_idempotent (df : list SeasonStats) :
  (exists r : SeasonStats, In r (normalize_fg3_pct df) /\ (1 <? FG3_PCT r) = true) ->
  normalize_fg3_pct (normalize_fg3_pct df) = normalize_fg3_pct df.
Proof.
  intros [r [Hin Hgt]].
  apply normalize_fg3_pct_fixed, FloatOrder.ltb_leb_false.
  apply (FloatOrder.max_above 1 (FG3_PCT r)); [| exact Hgt].
  apply in_map_iff. exists r. split; [reflexivity | exact Hin].
Qed.

Lemma normalize_fg3_pct_idempotent_witness :
  normalize_fg3_pct (normalize_fg3_pct Samples.fractions_table) = normalize_fg3_pct Samples.fractions_table.
Proof.
  apply normalize_fg3_pct_idempotent.
  exists (mkSeasonStats "2023-24"
            (mkTeamStats "Boston Celtics" 82 64 18 16.5 42.5 (0.388 * 100) 120.6)).
  split; [left; reflexivity | reflexivity].
Defined.

(** Below the bound the step is not idempotent: percentages that are all at
    most 1 after one pass are scaled again. *)
Example normalize_fg3_pct_twice_tiny :
  map (fun r : SeasonStats => Py.format_1f false (FG3_PCT r)) (normalize_fg3_pct Samples.tiny_table)
    = ["0.5"%string]
  /\ map (fun r : SeasonStats => Py.format_1f false (FG3_PCT r))
       (normalize_fg3_pct (normalize_fg3_pct Samples.tiny_table)) = ["50.0"%string].
Proof. split; vm_compute; reflexivity. Qed.

End Normalization.

(** ** Number formatting, on examples *)

Module FormatTests.
Import Py.
Local Open Scope float_scope.

Example fmt_385 : format_1f false 38.5 = "38.5"%string.
Proof. vm_compute. reflexivity. Qed.

Example fmt_delta : format_1f true (38.5 - 36.2) = "+2.3"%string.
Proof. vm_compute. reflexivity. Qed.

Example fmt_half_even : format_1f false 0.25 = "0.2"%string /\ format_1f false 0.75 = "0.8"%string.
Proof. vm_compute. split; reflexivity. Qed.

Example fmt_neg : format_1f true (-0.04) = "-0.0"%string /\ format_1f false (-12.96) = "-13.0"%string.
Proof. vm_compute. split; reflexivity. Qed.

Example fmt_nan : format_1f false nan = "nan"%string /\ format_1f true nan = "+nan"%string.
Proof. vm_compute. split; reflexivity. Qed.

Example fmt_big : format_1f false 123456789.96 = "123456790.0"%string.
Proof. vm_compute. reflexivity. Qed.

End FormatTests.

(** ** The two means, on examples *)

Module MeanTests.
Import Py.
Local Open Scope float_scope.

(** Eight values are summed in pairs: the mean prints 34.5 where the sum
    from left to right would give 34.4. *)
Example mean_of_eight :
  format_1f false (mean [32.0; 34.1; 36.1; 31.6; 30.4; 38.7; 33.1; 39.6]) = "34.5"%string
  /\ format_1f false
       (add_all 0 [32.0; 34.1; 36.1; 31.6; 30.4; 38.7; 33.1; 39.6] / 8) = "34.4"%string.
Proof. split; vm_compute; reflexivity. Qed.

(** The group mean adds with a compensation: it prints 34.5 where the sum
    from left to right would give 34.6. *)
Example group_mean_of_ten :
  format_1f false
    (group_mean [39.5; 39.4; 33.2; 33.9; 32.8; 31.3; 32.5; 39.8; 30.8; 32.3]) = "34.5"%string
  /\ format_1f false
       (add_all 0 [39.5; 39.4; 33.2; 33.9; 32.8; 31.3; 32.5; 39.8; 30.8; 32.3] / 10)
     = "34.6"%string.
Proof. split; vm_compute; reflexivity. Qed.

(** Missing values are left out of both means, and a column without values
    has none. *)
Example means_skip_missing :
  mean [10; nan; 20] = 15 /\ group_mean [10; nan; 20] = 15
  /\ is_nan (mean [nan]) = true /\ is_nan (group_mean []) = true.
Proof. repeat split. Qed.

End MeanTests.

(** ** The fetcher *)

Section Fetcher.

Variable provider : Provider.

Lemma fetch_team_stats_for_season_run (season : string) (log : Log) :
  fetch_team_stats_for_season provider season log =
    (match provider log season with
     | inl e => inl e
     | inr df => inr (map (mkSeasonStats season) df)
     end,
     log ++ [Request season "PerGame"]).
Proof.
  unfold fetch_team_stats_for_season, bind, call_provider, ret.
  destruct (provider log season); reflexivity.
Qed.

(** C9: a failure of the provider is the failure of the fetch, with the same
    exception, after the one request and without a table; an answer of the
    provider is returned tagged; so the fetch raises exactly when the provider
    does. *)
Theorem fetch_propagates_provider_error (season : string) (log : Log) :
  (forall e, provider log season = inl e ->
     fetch_team_stats_for_season provider season log
       = (inl e, log ++ [Request season "PerGame"]))
  /\ (forall df, provider log season = inr df ->
     fetch_team_stats_for_season provider season log
       = (inr (map (mkSeasonStats season) df), log ++ [Request season "PerGame"]))
  /\ ((exists e, fst (fetch_team_stats_for_season provider season log) = inl e)
      <-> (exists e, provider log season = inl e)).
Proof.
  rewrite fetch_team_stats_for_season_run. repeat split.
  - intros e ->. reflexivity.
  - intros df ->. reflexivity.
  - simpl. destruct (provider log season) as [e | df]; intros [e' H];
      [exists e; reflexivity | discriminate].
  - simpl. intros [e ->]. exists e. reflexivity.
Qed.

End Fetcher.

(** A provider that would answer a second request is not asked again: the
    fetch fails, and so does the whole load, after a single request. *)
Example fetch_does_not_retry :
  fetch_team_stats_for_season Samples.flaky_provider "2023-24" []
    = (inl (ProviderError "timeout"), [Request "2023-24" "PerGame"])
  /\ fst (fetch_team_stats_for_season Samples.flaky_provider "2023-24"
            [Request "2023-24" "PerGame"])
     = inr (map (mkSeasonStats "2023-24") [Samples.celtics_24; Samples.nuggets_24])
  /\ load_dataset Samples.flaky_provider []
     = (inl (ProviderError "timeout"), [Request "2014-15" "PerGame"]).
Proof. repeat split; reflexivity. Qed.

(** ** The aggregator *)

Section Aggregator.

Variable provider : Provider.

Lemma fetch_seasons_fetched (seasons : list string) :
  forall frames log out log',
    fetch_seasons provider seasons frames log = (inr out, log') ->
    exists fetched_frames,
      out = frames ++ fetched_frames /\ fetched provider log seasons fetched_frames log'.
Proof.
  induction seasons as [| s rest IH]; intros frames log out log' H.
  - injection H as <- <-. exists []. split; [symmetry; apply app_nil_r | constructor].
  - cbn [fetch_seasons] in H. unfold bind at 1 in H.
    destruct (fetch_team_stats_for_season provider s log) as [[e | df_s] log1] eqn:Hf;
      [discriminate |].
    unfold bind at 1 in H. cbn [sleep] in H.
    destruct (IH _ _ _ _ H) as [fs [-> Hfs]].
    exists (df_s :: fs). split.
    + rewrite <- app_assoc. reflexivity.
    + econstructor; [exact Hf | reflexivity | exact Hfs].
Qed.

Lemma fetched_fetch_seasons (seasons : list string) :
  forall frames log fetched_frames log',
    fetched provider log seasons fetched_frames log' ->
    fetch_seasons provider seasons frames log = (inr (frames ++ fetched_frames), log').
Proof.
  induction seasons as [| s rest IH]; intros frames log fs log' H; inversion H; subst.
  - cbn. rewrite app_nil_r. reflexivity.
  - cbn [fetch_seasons]. unfold bind at 1.
    match goal with Hf : fetch_team_stats_for_season _ _ _ = _ |- _ => rewrite Hf end.
    unfold bind at 1.
    match goal with Hs : sleep _ _ = _ |- _ => rewrite Hs end.
    rewrite (IH _ _ _ _ ltac:(eassumption)), <- app_assoc. reflexivity.
Qed.

(** Each fetched frame is a table of the provider, in its row order, with
    the season written in every row. *)
Lemma fetched_frames_tagged (seasons : list string) :
  forall log frames log',
    fetched provider log seasons frames log' ->
    Forall2 (fun s df_s =>
               exists log_s df, provider log_s s = inr df /\ df_s = map (mkSeasonStats s) df)
            seasons frames.
Proof.
  induction seasons as [| s rest IH]; intros log frames log' H; inversion H; subst;
    constructor.
  - match goal with Hf : fetch_team_stats_for_season _ _ _ = _ |- _ =>
      rewrite fetch_team_stats_for_season_run in Hf; rename Hf into Hrun end.
    destruct (provider log s) as [e | df] eqn:Hp; [discriminate |].
    injection Hrun as <- <-. exists log, df. split; [exact Hp | reflexivity].
  - eapply IH; eassumption.
Qed.

Lemma aggregate_fetched (seasons : list string) (log : Log)
  (table : list SeasonStats) (log' : Log) :
  aggregate provider seasons log = (inr table, log') ->
  exists frames, fetched provider log seasons frames log' /\ table = List.concat frames.
Proof.
  unfold aggregate, bind. intros H.
  destruct (fetch_seasons provider seasons [] log) as [[e | out] log1] eqn:Hf;
    [discriminate |].
  injection H as <- <-.
  destruct (fetch_seasons_fetched _ _ _ _ _ Hf) as [fs [-> Hfs]].
  exists fs. split; [exact Hfs | reflexivity].
Qed.

(** When every fetch succeeds the aggregator returns the concatenation. *)
Lemma aggregate_defined (seasons : list string) (log : Log)
  (frames : list (list SeasonStats)) (log' : Log) :
  fetched provider log seasons frames log' ->
  aggregate provider seasons log = (inr (List.concat frames), log').
Proof.
  intros H. unfold aggregate, bind.
  rewrite (fetched_fetch_seasons _ [] _ _ _ H). reflexivity.
Qed.

(** C4: the concatenated table is the frames fetched for the ten seasons, in
    the order of the season list and each in the provider's row order; it has
    as many rows as the frames together, and every row of a frame carries the
    season the frame was fetched for. *)
Theorem aggregate_concatenates_seasons (log : Log) (table : list SeasonStats) (log' : Log) :
  aggregate provider SEASONS log = (inr table, log') ->
  exists frames : list (list SeasonStats),
    fetched provider log SEASONS frames log'
    /\ table = List.concat frames
    /\ List.length table = list_sum (map (@List.length SeasonStats) frames)
    /\ Forall2 (fun s df_s => Forall (fun r : SeasonStats => SEASON r = s) df_s)
         SEASONS frames
    /\ Forall2 (fun s df_s =>
                  exists log_s df,
                    provider log_s s = inr df /\ df_s = map (mkSeasonStats s) df)
         SEASONS frames.
Proof.
  intros H. destruct (aggregate_fetched _ _ _ _ H) as [frames [Hfs ->]].
  exists frames. pose proof (fetched_frames_tagged _ _ _ _ Hfs) as Htag.
  repeat split; try assumption.
  - apply length_concat.
  - eapply Forall2_impl; [| exact Htag].
    intros s df_s [log_s [df [_ ->]]]. apply Forall_forall.
    intros r Hr. apply in_map_iff in Hr. destruct Hr as [t [<- _]]. reflexivity.
Qed.

End Aggregator.

Lemma aggregate_concatenates_seasons_witness :
  exists frames : list (list SeasonStats),
    fetched Samples.provider [] SEASONS frames Samples.aggregated_log
    /\ Samples.aggregated = List.concat frames
    /\ List.length Samples.aggregated = list_sum (map (@List.length SeasonStats) frames)
    /\ Forall2 (fun s df_s => Forall (fun r : SeasonStats => SEASON r = s) df_s)
         SEASONS frames
    /\ Forall2 (fun s df_s =>
                  exists log_s df,
                    Samples.provider log_s s = inr df /\ df_s = map (mkSeasonStats s) df)
         SEASONS frames.
Proof.
  apply (aggregate_concatenates_seasons Samples.provider [] Samples.aggregated
           Samples.aggregated_log).
  reflexivity.
Defined.

Example aggregate_sample_rows :
  map (fun r : SeasonStats => (SEASON r, TEAM_NAME r)) Samples.aggregated
    = [ ("2022-23", "Denver Nuggets"); ("2022-23", "Boston Celtics");
        ("2023-24", "Boston Celtics"); ("2023-24", "Denver Nuggets") ].
Proof. reflexivity. Qed.

(** ** The deriver *)

Section Deriver.

Local Open Scope float_scope.

Lemma in_merge_left (df : list Derived) (champions : list (string * string)) (m : Merged) :
  In m (merge_left df champions) -> In (derived m) df.
Proof.
  unfold merge_left. rewrite in_flat_map. intros [r [Hr Hm]].
  destruct (filter (fun c => String.eqb (fst c) (SEASON r)) champions) as [| c cs].
  - destruct Hm as [<- | []]. exact Hr.
  - apply in_map_iff in Hm. destruct Hm as [c' [<- _]]. exact Hr.
Qed.

Lemma in_derive_dataset (champions : list (string * string)) (df : list SeasonStats)
  (r : Row) :
  In r (derive_dataset champions df) ->
  exists s champion,
    In s (normalize_fg3_pct df) /\ r = dataset_row s champion.
Proof.
  unfold derive_dataset. rewrite in_map_iff. intros [m [<- Hm]].
  apply in_merge_left in Hm. unfold derive_metrics in Hm.
  apply in_map_iff in Hm. destruct Hm as [s [Hs Hin]].
  exists s, (CHAMPION_TEAM m). split; [exact Hin |].
  unfold dataset_row. rewrite Hs. destruct m; reflexivity.
Qed.

Lemma load_dataset_with_run (provider : Provider) (seasons : list string)
  (champions : list (string * string)) (log : Log) (df : Dataset) (log' : Log) :
  load_dataset_with provider seasons champions log = (inr df, log') ->
  exists table,
    aggregate provider seasons log = (inr table, log')
    /\ df = derive_dataset champions table.
Proof.
  unfold load_dataset_with, bind, ret. intros H.
  destruct (aggregate provider seasons log) as [[e | table] log1]; [discriminate |].
  injection H as <- <-. exists table. split; reflexivity.
Qed.

(** C3: in every row of the loaded dataset with positive points, the points
    from three are the makes times 3 and their share is that product divided
    by the points, times 100, as binary64 values. *)
Theorem derived_columns_exact (provider : Provider) (log : Log) (df : Dataset)
  (log' : Log) (r : Row) :
  load_dataset provider log = (inr df, log') ->
  In r df ->
  (0 <? PTS r) = true ->
  POINTS_FROM_3 r = FG3M r * 3
  /\ PERCENT_POINTS_3 r = FG3M r * 3 / PTS r * 100.
Proof.
  intros Hload Hin _.
  destruct (load_dataset_with_run _ _ _ _ _ _ Hload) as [table [_ ->]].
  destruct (in_derive_dataset _ _ _ Hin) as [s [champion [_ ->]]].
  split; reflexivity.
Qed.

Lemma derived_columns_exact_witness :
  POINTS_FROM_3 Samples.celtics_row = 16.5 * 3
  /\ PERCENT_POINTS_3 Samples.celtics_row = 16.5 * 3 / 120.6 * 100.
Proof.
  apply (derived_columns_exact Samples.provider [] Samples.loaded
           Samples.aggregated_log Samples.celtics_row).
  - reflexivity.
  - right. right. left. reflexivity.
  - reflexivity.
Defined.

Example celtics_percent_points :
  Py.format_1f false (PERCENT_POINTS_3 Samples.celtics_row) = "41.0"%string.
Proof. vm_compute. reflexivity. Qed.

End Deriver.

(** ** The champion flag *)

Section ChampionFlag.

Lemma lookup_not_in {V} (key : string) (items : list (string * V)) :
  ~ In key (map fst items) -> lookup key items = None.
Proof.
  induction items as [| [k v] rest IH]; intros H; simpl in *; [reflexivity |].
  destruct (String.eqb_spec k key) as [-> | _]; [tauto | apply IH; tauto].
Qed.

Lemma filter_key_not_in {V} (key : string) (items : list (string * V)) :
  ~ In key (map fst items) -> filter (fun c => String.eqb (fst c) key) items = [].
Proof.
  induction items as [| [k v] rest IH]; intros H; simpl in *; [reflexivity |].
  destruct (String.eqb_spec k key) as [-> | _]; [tauto | apply IH; tauto].
Qed.

(** In a table with one row per key, the rows of a key are the one [lookup]
    finds. *)
Lemma filter_key_lookup {V} (key : string) (items : list (string * V)) :
  NoDup (map fst items) ->
  filter (fun c => String.eqb (fst c) key) items =
    match lookup key items with
    | Some v => [(key, v)]
    | None => []
    end.
Proof.
  induction items as [| [k v] rest IH]; intros H; simpl in *; [reflexivity |].
  inversion H as [| ? ? Hk Hrest]; subst.
  destruct (String.eqb_spec k key) as [-> | _].
  - rewrite (filter_key_not_in _ _ Hk). reflexivity.
  - apply IH, Hrest.
Qed.

Lemma merge_left_lookup (champions : list (string * string)) (df : list Derived) :
  NoDup (map fst champions) ->
  merge_left df champions = map (fun r : Derived => mkMerged r (lookup (SEASON r) champions)) df.
Proof.
  intros H. unfold merge_left. induction df as [| r df IH]; [reflexivity |].
  cbn [flat_map]. rewrite IH, (filter_key_lookup _ _ H). cbn [map].
  destruct (lookup (SEASON r) champions); reflexivity.
Qed.

Lemma derive_dataset_rows (champions : list (string * string)) (df : list SeasonStats) :
  NoDup (map fst champions) ->
  derive_dataset champions df =
    map (fun s : SeasonStats => dataset_row s (lookup (SEASON s) champions))
        (normalize_fg3_pct df).
Proof.
  intros H. unfold derive_dataset, derive_metrics.
  rewrite (merge_left_lookup _ _ H), !map_map. reflexivity.
Qed.

Lemma normalize_fg3_pct_season_team (df : list SeasonStats) :
  map season_team (normalize_fg3_pct df) = map season_team df.
Proof.
  unfold normalize_fg3_pct.
  destruct (PrimFloat.leb _ _); [| reflexivity].
  rewrite map_map. reflexivity.
Qed.

(** No two rows of the concatenated table share season and team when the
    seasons are distinct and no frame repeats a team. *)
Lemma concat_frames_NoDup (seasons : list string) :
  forall frames : list (list SeasonStats),
    NoDup seasons ->
    Forall2 (fun s df_s =>
               NoDup (map (fun r : SeasonStats => TEAM_NAME r) df_s)
               /\ Forall (fun r : SeasonStats => SEASON r = s) df_s)
            seasons frames ->
    NoDup (map season_team (List.concat frames))
    /\ forall r, In r (List.concat frames) -> In (SEASON r) seasons.
Proof.
  induction seasons as [| s rest IH]; intros frames Hnd H; inversion H; subst.
  - split; [constructor | intros r []].
  - inversion Hnd as [| ? ? Hs Hrest]; subst.
    match goal with Hf : _ /\ _ |- _ => destruct Hf as [Hteams Htag] end.
    destruct (IH _ Hrest ltac:(eassumption)) as [IHnd IHin].
    rewrite Forall_forall in Htag.
    cbn [List.concat]. split.
    + rewrite map_app. apply NoDup_app.
      * clear - Hteams Htag. induction y as [| r df IHdf]; [constructor |].
        simpl in Hteams. inversion Hteams as [| ? ? Hr Hdf]; subst.
        simpl. constructor.
        -- intros Hin. apply Hr. apply in_map_iff in Hin.
           destruct Hin as [r' [Heq Hr']]. apply in_map_iff. exists r'.
           split; [| exact Hr']. unfold season_team in Heq. congruence.
        -- apply IHdf; [exact Hdf | intros r' Hr'; apply Htag; right; exact Hr'].
      * exact IHnd.
      * intros k Hk Hk'. apply in_map_iff in Hk. destruct Hk as [r [<- Hr]].
        apply in_map_iff in Hk'. destruct Hk' as [r' [Heq Hr']].
        apply Hs. rewrite <- (Htag r Hr).
        replace (SEASON r) with (SEASON r') by (unfold season_team in Heq; congruence).
        apply IHin, Hr'.
    + intros r Hr. apply in_app_or in Hr. destruct Hr as [Hr | Hr].
      * left. symmetry. apply Htag, Hr.
      * right. apply IHin, Hr.
Qed.

(** At most one row of a duplicate-free table passes a test that pins the
    key down. *)
Lemma filter_pinned_length {A K} (key : A -> K) (p : A -> bool) (k0 : K) (l : list A) :
  NoDup (map key l) ->
  (forall x, In x l -> p x = true -> key x = k0) ->
  (List.length (filter p l) <= 1)%nat.
Proof.
  induction l as [| x l IH]; intros Hnd Hp; simpl; [lia |].
  inversion Hnd as [| ? ? Hx Hl]; subst.
  assert (IHl := IH Hl (fun y Hy => Hp y (or_intror Hy))).
  destruct (p x) eqn:Hpx; [| exact IHl].
  assert (Hnone : filter p l = []).
  { destruct (filter p l) as [| y ys] eqn:Hf; [reflexivity | exfalso].
    assert (Hy : In y (filter p l)) by (rewrite Hf; left; reflexivity).
    apply filter_In in Hy. destruct Hy as [Hy Hpy].
    apply Hx. rewrite (Hp x (or_introl eq_refl) Hpx), <- (Hp y (or_intror Hy) Hpy).
    apply in_map, Hy. }
  rewrite Hnone. simpl. lia.
Qed.

Variable provider : Provider.

(** C1: when the provider never repeats a team within a season, the loaded
    dataset flags at most one row per season; a row is flagged exactly when
    its team is the champion recorded for its season; and a row of a season
    without a recorded champion carries the flag [false]. *)
Theorem is_champion_flag (seasons : list string) (champions : list (string * string))
  (log : Log) (df : Dataset) (log' : Log) :
  NoDup seasons ->
  NoDup (map fst champions) ->
  (forall log_s s frame,
      provider log_s s = inr frame ->
      NoDup (map (fun t : TeamStats => TEAM_NAME t) frame)) ->
  load_dataset_with provider seasons champions log = (inr df, log') ->
  (forall s,
      (List.length (filter (fun r : Row => IS_CHAMPION r && String.eqb (SEASON r) s) df)
       <= 1)%nat)
  /\ (forall r : Row, In r df ->
        (IS_CHAMPION r = true <-> lookup (SEASON r) champions = Some (TEAM_NAME r)))
  /\ (forall r : Row, In r df ->
        lookup (SEASON r) champions = None -> IS_CHAMPION r = false).
Proof.
  intros Hseasons Hchampions Hprov Hload.
  destruct (load_dataset_with_run _ _ _ _ _ _ Hload) as [table [Hagg ->]].
  rewrite (derive_dataset_rows _ _ Hchampions).
  assert (Hflag : forall s : SeasonStats,
             IS_CHAMPION (dataset_row s (lookup (SEASON s) champions)) = true
             <-> lookup (SEASON s) champions = Some (TEAM_NAME s)).
  { intros s. unfold dataset_row, flag_champion. cbn.
    destruct (lookup (SEASON s) champions) as [c |]; [| split; discriminate].
    rewrite String.eqb_eq. split; congruence. }
  split; [| split].
  - intros s.
    destruct (aggregate_fetched _ _ _ _ _ Hagg) as [frames [Hfs ->]].
    assert (Hnd : NoDup (map season_team (normalize_fg3_pct (List.concat frames)))).
    { rewrite normalize_fg3_pct_season_team.
      apply (concat_frames_NoDup seasons frames Hseasons).
      eapply Forall2_impl; [| exact (fetched_frames_tagged _ _ _ _ _ Hfs)].
      intros s0 df_s [log_s [frame [Hp ->]]]. split.
      - rewrite map_map. exact (Hprov _ _ _ Hp).
      - apply Forall_forall. intros r Hr. apply in_map_iff in Hr.
        destruct Hr as [t [<- _]]. reflexivity. }
    rewrite filter_map_swap, length_map.
    apply (filter_pinned_length season_team _
             (s, match lookup s champions with Some c => c | None => EmptyString end));
      [exact Hnd |].
    intros x _ Hx. apply andb_prop in Hx. destruct Hx as [Hc Hs].
    apply Hflag in Hc. apply String.eqb_eq in Hs. cbn in Hs.
    unfold season_team. rewrite <- Hs, Hc. reflexivity.
  - intros r Hr. apply in_map_iff in Hr. destruct Hr as [s [<- _]]. apply Hflag.
  - intros r Hr Hnone. apply in_map_iff in Hr. destruct Hr as [s [<- _]].
    cbn in Hnone. unfold dataset_row, flag_champion. cbn. rewrite Hnone. reflexivity.
Qed.

End ChampionFlag.

Lemma NoDup_by_nodup (l : list string) : nodup string_dec l = l -> NoDup l.
Proof. intros <-. apply NoDup_nodup. Qed.

Lemma sample_provider_teams (log_s : Log) (s : string) (frame : Frame) :
  Samples.provider log_s s = inr frame ->
  NoDup (map (fun t : TeamStats => TEAM_NAME t) frame).
Proof.
  unfold Samples.provider.
  destruct (String.eqb s "2022-23"); [| destruct (String.eqb s "2023-24")];
    intros H; injection H as <-; apply NoDup_by_nodup; reflexivity.
Qed.

Lemma is_champion_flag_witness :
  (forall s,
      (List.length (filter (fun r : Row => IS_CHAMPION r && String.eqb (SEASON r) s)
                      Samples.loaded) <= 1)%nat)
  /\ (forall r : Row, In r Samples.loaded ->
        (IS_CHAMPION r = true <-> lookup (SEASON r) CHAMPIONS_DATA = Some (TEAM_NAME r)))
  /\ (forall r : Row, In r Samples.loaded ->
        lookup (SEASON r) CHAMPIONS_DATA = None -> IS_CHAMPION r = false).
Proof.
  apply (is_champion_flag Samples.provider SEASONS CHAMPIONS_DATA [] Samples.loaded
           Samples.aggregated_log).
  - apply NoDup_by_nodup. reflexivity.
  - apply NoDup_by_nodup. reflexivity.
  - exact sample_provider_teams.
  - reflexivity.
Defined.

Example sample_flags :
  map (fun r : Row => (SEASON r, TEAM_NAME r, IS_CHAMPION r)) Samples.loaded
    = [ ("2022-23", "Denver Nuggets", true); ("2022-23", "Boston Celtics", false);
        ("2023-24", "Boston Celtics", true); ("2023-24", "Denver Nuggets", false) ].
Proof. reflexivity. Qed.

(** A season the champions table does not know: the champion is missing and
    the flag is [false]. *)
Example unknown_season_flag :
  map (fun r : Row => (CHAMPION_TEAM r, IS_CHAMPION r))
      (derive_dataset CHAMPIONS_DATA [mkSeasonStats "2024-25" Samples.celtics_24])
    = [(None, false)].
Proof. reflexivity. Qed.

(** ** The filters *)

Section Filters.

Local Open Scope float_scope.




Example filter_min_pct_38 :
  map (fun r : Row => TEAM_NAME r) (filter_min_pct 38 Samples.season_24)
    = ["Boston Celtics"%string]
  /\ filter_min_pct 100 Samples.season_24 = [].
Proof. split; reflexivity. Qed.

Lemma NoDup_map_filter {A K} (key : A -> K) (p : A -> bool) (l : list A) :
  NoDup (map key l) -> NoDup (map key (filter p l)).
Proof.
  induction l as [| x l IH]; intros H; simpl in *; [constructor |].
  inversion H as [| ? ? Hx Hl]; subst.
  destruct (p x); [| exact (IH Hl)].
  simpl. constructor; [| exact (IH Hl)].
  intros Hin. apply Hx. apply in_map_iff in Hin. destruct Hin as [y [Hy Hin]].
  apply filter_In in Hin. rewrite <- Hy. apply in_map, Hin.
Qed.

(** The filtered table has one row per team when the dataset has one row per
    season and team. *)
Lemma filter_dataset_teams (df : Dataset) (ui : Inputs) :
  NoDup (map (fun r : Row => season_team r) df) ->
  NoDup (map (fun r : Row => TEAM_NAME r) (filter_dataset df ui)).
Proof.
  intros H. unfold filter_dataset, filter_min_pct, filter_teams, season_rows.
  set (p3 := fun r : Row => _ <=? FG3_PCT r).
  set (p2 := fun r : Row => existsb _ _).
  set (p1 := fun r : Row => String.eqb (SEASON r) (selected_season ui)).
  assert (Hkeys : NoDup (map (fun r : Row => season_team r)
                           (filter p3 (filter p2 (filter p1 df)))))
    by (do 3 apply NoDup_map_filter; exact H).
  apply (NoDup_map_inv (fun t : string => (selected_season ui, t))).
  rewrite map_map.
  erewrite map_ext_in; [exact Hkeys |].
  intros r Hr. do 2 (apply filter_In in Hr; destruct Hr as [Hr _]).
  apply filter_In in Hr. destruct Hr as [_ Hr]. subst p1. cbn beta in Hr.
  apply String.eqb_eq in Hr. unfold season_team. rewrite Hr. reflexivity.
Qed.

End Filters.

(** ** The metric cards *)

Section MetricCards.

Local Open Scope float_scope.

(** The four cards, by the champion rows of the table. *)
Lemma render_metrics_cards (df : Dataset) :
  render_metrics df =
    inr [ mkMetric "Tentativas 3PT/Jogo"
            (Py.format_1f false (Py.mean (map (fun r : Row => THREES_ATT_PER_GAME r) df)))
            (Some "Liga"%string);
          mkMetric "3PT% médio"
            (Py.format_1f false (Py.mean (map (fun r : Row => FG3_PCT r) df)) ++ "%")
            (Some "Liga"%string);
          match filter IS_CHAMPION df with
          | r :: _ =>
              mkMetric "Campeão — 3PT%" (Py.format_1f false (FG3_PCT r) ++ "%")
                (Some (Py.format_1f true
                         (FG3_PCT r - Py.mean (map (fun r : Row => FG3_PCT r) df))
                       ++ "%")%string)
          | [] => mkMetric "Campeão — 3PT%" "N/A" None
          end;
          match filter IS_CHAMPION df with
          | r :: _ =>
              mkMetric "% pontos do 3PT" (Py.format_1f false (PERCENT_POINTS_3 r) ++ "%")
                (Some "Campeão"%string)
          | [] => mkMetric "% pontos do 3PT" "N/A" None
          end ].
Proof.
  unfold render_metrics. destruct (filter IS_CHAMPION df) as [| r later]; reflexivity.
Qed.




Example two_champions_cards :
  render_metrics Samples.two_champions =
    inr [ mkMetric "Tentativas 3PT/Jogo" "34.6" (Some "Liga"%string);
          mkMetric "3PT% médio" "36.5%" (Some "Liga"%string);
          mkMetric "Campeão — 3PT%" "38.8%" (Some "+2.3%"%string);
          mkMetric "% pontos do 3PT" "41.0%" (Some "Campeão"%string) ].
Proof. vm_compute. reflexivity. Qed.

End MetricCards.

(** ** The page *)

Section PageViews.

Local Open Scope float_scope.

(** The row of the displayed table for a dataset row. *)
Lemma select_display_cols (df : Dataset) :
  select display_cols df =
    inr (mkTable display_cols
           (map (fun r : Row =>
                   [ CStr (TEAM_NAME r); CInt (W r); CInt (L r);
                     CFloat (THREES_PER_GAME r); CFloat (THREES_ATT_PER_GAME r);
                     CFloat (FG3_PCT r); CFloat (PERCENT_POINTS_3 r);
                     CBool (IS_CHAMPION r) ]) df)).
Proof. reflexivity. Qed.

Lemma export_run (df_filtered : Dataset) (selected_season : string) :
  exists df_display : Table,
    export df_filtered selected_season =
      inr (df_display,
           mkDownload "⬇️ Baixar CSV da temporada" df_display
             ("nba_stats_" ++ selected_season ++ ".csv") "text/csv")
    /\ columns df_display =
         [ "Time"; "Vitórias"; "Derrotas"; "3PT/Jogo"; "Tentativas 3PT/Jogo";
           "3PT %"; "% Pontos do 3PT"; "Campeão" ]%string
    /\ records df_display =
         map (fun r : Row =>
                [ CStr (TEAM_NAME r); CInt (W r); CInt (L r);
                  CFloat (THREES_PER_GAME r); CFloat (THREES_ATT_PER_GAME r);
                  CFloat (FG3_PCT r); CFloat (PERCENT_POINTS_3 r);
                  CBool (IS_CHAMPION r) ]) df_filtered.
Proof.
  unfold export. rewrite select_display_cols. cbn [bindR].
  eexists. split; [reflexivity | split; reflexivity].
Qed.

(** The page is always rendered: no view raises on a loaded dataset. *)
Lemma render_page_defined (df : Dataset) (ui : Inputs) :
  exists page : Page,
    render_page df ui = inr page
    /\ render_metrics (filter_dataset df ui) = inr (metrics page)
    /\ top_bar page = plot_top_bar (filter_dataset df ui)
    /\ scatter page = plot_scatter (filter_dataset df ui)
    /\ evolution page = plot_evolution df
    /\ export (filter_dataset df ui) (selected_season ui)
       = inr (dataframe page, download page).
Proof.
  unfold render_page.
  destruct (export_run (filter_dataset df ui) (selected_season ui)) as [t [Ht _]].
  rewrite render_metrics_cards, Ht. cbn [bindR fst snd].
  eexists. split; [reflexivity |].
  cbn [metrics top_bar scatter evolution dataframe download].
  repeat split.
Qed.

(** C8: the exported table has the eight renamed columns in their order and
    one record per row of the filtered table, built from that row; the file
    is named after the selected season; and the teams of the records are
    distinct when the dataset has one row per season and team. *)
Theorem csv_export_contents (df : Dataset) (ui : Inputs) :
  exists page : Page,
    render_page df ui = inr page
    /\ columns (data (download page)) =
         [ "Time"; "Vitórias"; "Derrotas"; "3PT/Jogo"; "Tentativas 3PT/Jogo";
           "3PT %"; "% Pontos do 3PT"; "Campeão" ]%string
    /\ records (data (download page)) =
         map (fun r : Row =>
                [ CStr (TEAM_NAME r); CInt (W r); CInt (L r);
                  CFloat (THREES_PER_GAME r); CFloat (THREES_ATT_PER_GAME r);
                  CFloat (FG3_PCT r); CFloat (PERCENT_POINTS_3 r);
                  CBool (IS_CHAMPION r) ]) (filter_dataset df ui)
    /\ List.length (records (data (download page))) = List.length (filter_dataset df ui)
    /\ file_name (download page) = ("nba_stats_" ++ selected_season ui ++ ".csv")%string
    /\ mime (download page) = "text/csv"%string
    /\ dataframe page = data (download page)
    /\ (NoDup (map (fun r : Row => season_team r) df) ->
        NoDup (map (fun r : Row => TEAM_NAME r) (filter_dataset df ui))).
Proof.
  destruct (render_page_defined df ui) as [page [Hpage [_ [_ [_ [_ Hexp]]]]]].
  destruct (export_run (filter_dataset df ui) (selected_season ui))
    as [t [Ht [Hcols Hrecs]]].
  rewrite Ht in Hexp. injection Hexp as Hdf Hdl.
  exists page. split; [exact Hpage |]. rewrite <- Hdl, <- Hdf. cbn [data file_name mime].
  repeat split; try assumption.
  - rewrite Hrecs. apply length_map.
  - apply filter_dataset_teams.
Qed.

Example main_sample_cards :
  exists page log,
    main Samples.provider (Samples.everything "2023-24") [] = (inr page, log)
    /\ List.length log = 20%nat
    /\ metrics page =
         [ mkMetric "Tentativas 3PT/Jogo" "36.9" (Some "Liga"%string);
           mkMetric "3PT% médio" "38.1%" (Some "Liga"%string);
           mkMetric "Campeão — 3PT%" "38.8%" (Some "+0.7%"%string);
           mkMetric "% pontos do 3PT" "41.0%" (Some "Campeão"%string) ]
    /\ map bar_y (marks (top_bar page)) = ["Denver Nuggets"; "Boston Celtics"]%string.
Proof.
  eexists. eexists. split; [vm_compute; reflexivity |].
  split; [reflexivity | split; reflexivity].
Qed.

Example csv_export_sample :
  exists page : Page,
    render_page Samples.loaded (Samples.everything "2023-24") = inr page
    /\ file_name (download page) = "nba_stats_2023-24.csv"%string
    /\ map (fun record => nth 0 record CNull) (records (data (download page)))
       = [CStr "Boston Celtics"; CStr "Denver Nuggets"].
Proof. eexists. split; [reflexivity | split; reflexivity]. Qed.

(** C7: on an empty filtered table the metric cards are rendered without an
    exception, but the two league cards print the NaN that the mean of an
    empty column is, "nan" and "nan%": they are neither blank nor "N/A", as
    the two champion cards are. *)
Lemma empty_table_league_cards_show_nan :
  exists cards : list Metric,
    render_metrics [] = inr cards
    /\ map value cards = ["nan"; "nan%"; "N/A"; "N/A"]%string
    /\ ~ Forall (fun v : string => v = "N/A"%string \/ v = EmptyString) (map value cards).
Proof.
  eexists. split; [reflexivity |]. split; [reflexivity |].
  intros H. inversion H as [| ? ? [Hv | Hv] _]; discriminate Hv.
Qed.

(** The line chart reads the whole dataset: two datasets with the same
    filtered table, here the rows of 2023-24, give different charts when they
    differ in another season. *)
Lemma evolution_reads_whole_dataset :
  filter_dataset Samples.season_24 (Samples.everything "2023-24")
    = filter_dataset Samples.seasons_23_24 (Samples.everything "2023-24")
  /\ exists page1 page2 : Page,
       render_page Samples.season_24 (Samples.everything "2023-24") = inr page1
       /\ render_page Samples.seasons_23_24 (Samples.everything "2023-24") = inr page2
       /\ map lp_x (marks (evolution page1)) = ["2023-24"; "2023-24"]%string
       /\ map lp_x (marks (evolution page2))
          = ["2022-23"; "2023-24"; "2022-23"; "2023-24"]%string
       /\ evolution page1 <> evolution page2.
Proof.
  split; [reflexivity |].
  eexists. eexists. split; [reflexivity |]. split; [reflexivity |].
  split; [reflexivity |]. split; [reflexivity |].
  intros H. apply (f_equal (fun fig => List.length (marks fig))) in H.
  vm_compute in H. discriminate H.
Qed.

(** C5, amended: the metric cards, the bar ranking, the scatter chart, the
    table and its export depend on the dataset only through the filtered
    table; the line chart is computed from the whole dataset and from nothing
    else. *)
Theorem views_of_filtered_dataset (df1 df2 : Dataset) (ui : Inputs) :
  filter_dataset df1 ui = filter_dataset df2 ui ->
  exists page1 page2 : Page,
    render_page df1 ui = inr page1
    /\ render_page df2 ui = inr page2
    /\ metrics page1 = metrics page2
    /\ top_bar page1 = top_bar page2
    /\ scatter page1 = scatter page2
    /\ dataframe page1 = dataframe page2
    /\ download page1 = download page2
    /\ evolution page1 = plot_evolution df1
    /\ evolution page2 = plot_evolution df2.
Proof.
  intros Hsame.
  destruct (render_page_defined df1 ui) as [p1 [Hp1 [Hc1 [Hb1 [Hs1 [He1 Hx1]]]]]].
  destruct (render_page_defined df2 ui) as [p2 [Hp2 [Hc2 [Hb2 [Hs2 [He2 Hx2]]]]]].
  rewrite Hsame in Hc1, Hb1, Hs1, Hx1.
  exists p1, p2. repeat split; try assumption; try congruence.
Qed.

Lemma views_of_filtered_dataset_witness :
  exists page1 page2 : Page,
    render_page Samples.season_24 (Samples.everything "2023-24") = inr page1
    /\ render_page Samples.seasons_23_24 (Samples.everything "2023-24") = inr page2
    /\ metrics page1 = metrics page2
    /\ top_bar page1 = top_bar page2
    /\ scatter page1 = scatter page2
    /\ dataframe page1 = dataframe page2
    /\ download page1 = download page2
    /\ evolution page1 = plot_evolution Samples.season_24
    /\ evolution page2 = plot_evolution Samples.seasons_23_24.
Proof.
  apply (views_of_filtered_dataset Samples.season_24 Samples.seasons_23_24
           (Samples.everything "2023-24")).
  reflexivity.
Defined.

End PageViews.

(** ** Loading: the first failure *)

Section Loading.

Variable provider : Provider.

Lemma fetch_seasons_app (pre : list string) :
  forall rest frames log fetched_frames log1,
    fetched provider log pre fetched_frames log1 ->
    fetch_seasons provider (pre ++ rest) frames log
      = fetch_seasons provider rest (frames ++ fetched_frames) log1.
Proof.
  induction pre as [| s pre IH]; intros rest frames log fs log1 H; inversion H; subst.
  - rewrite app_nil_r. reflexivity.
  - cbn [app fetch_seasons]. unfold bind at 1.
    match goal with Hf : fetch_team_stats_for_season _ _ _ = _ |- _ => rewrite Hf end.
    unfold bind at 1.
    match goal with Hs : sleep _ _ = _ |- _ => rewrite Hs end.
    rewrite (IH _ _ _ _ _ ltac:(eassumption)), <- app_assoc. reflexivity.
Qed.

(** X1: when the seasons before [s] are fetched and the provider fails on
    [s], the load fails with that exception right after the request for [s]:
    no pause follows, no later season is requested and no dataset is
    returned. *)
Theorem load_dataset_stops_at_first_failure (champions : list (string * string))
  (pre : list string) (s : string) (post : list string)
  (log : Log) (frames : list (list SeasonStats)) (log1 : Log) (e : Exn) :
  fetched provider log pre frames log1 ->
  provider log1 s = inl e ->
  load_dataset_with provider (pre ++ s :: post) champions log
    = (inl e, log1 ++ [Request s "PerGame"]).
Proof.
  intros Hpre Hfail. unfold load_dataset_with, aggregate.
  unfold bind at 1. unfold bind at 1.
  rewrite (fetch_seasons_app _ _ _ _ _ _ Hpre). cbn [fetch_seasons].
  unfold bind at 1. rewrite fetch_team_stats_for_season_run, Hfail. reflexivity.
Qed.

End Loading.

Lemma load_dataset_stops_at_first_failure_witness :
  load_dataset Samples.failing_provider []
    = (inl (ProviderError "HTTP 500"),
       [ Request "2014-15" "PerGame"; Sleep 0.35;
         Request "2015-16" "PerGame"; Sleep 0.35;
         Request "2016-17" "PerGame" ]).
Proof.
  refine (load_dataset_stops_at_first_failure Samples.failing_provider CHAMPIONS_DATA
            ["2014-15"; "2015-16"] "2016-17"
            ["2017-18"; "2018-19"; "2019-20"; "2020-21"; "2021-22"; "2022-23"; "2023-24"]
            []
            [ [mkSeasonStats "2014-15" Samples.celtics_24];
              [mkSeasonStats "2015-16" Samples.celtics_24] ]
            [ Request "2014-15" "PerGame"; Sleep 0.35;
              Request "2015-16" "PerGame"; Sleep 0.35 ]
            (ProviderError "HTTP 500") _ _).
  - eapply fetched_cons; [reflexivity | reflexivity |].
    eapply fetched_cons; [reflexivity | reflexivity |].
    apply fetched_nil.
  - reflexivity.
Defined.


(** ** The normalization decision *)

Section NormalizationDecision.

Local Open Scope float_scope.

Lemma fold_fmax_in (xs : list float) :
  forall x, fold_left Py.fmax xs x = x \/ In (fold_left Py.fmax xs x) xs.
Proof.
  induction xs as [| y ys IH]; intros x; simpl; [left; reflexivity |].
  destruct (IH (Py.fmax x y)) as [H | H]; [| right; right; exact H].
  rewrite H. unfold Py.fmax. destruct (x <? y); [right; left; reflexivity | left; reflexivity].
Qed.

(** The maximum of a column with a value is one of its values. *)
Lemma max_in (col : Py.Series) :
  filter Py.notna col <> [] -> In (Py.max col) (filter Py.notna col).
Proof.
  unfold Py.max. destruct (filter Py.notna col) as [| x xs]; [congruence | intros _].
  destruct (fold_fmax_in xs x) as [-> | H]; [left; reflexivity | right; exact H].
Qed.

Lemma max_all_missing (col : Py.Series) :
  filter Py.notna col = [] -> (Py.max col <=? 1) = false.
Proof. intros H. unfold Py.max. rewrite H. reflexivity. Qed.

(** X4: the decision is taken once for the table.  A single value above 1
    leaves every row as it is, so does a column without values (an empty table
    included); when the column has a value and none of its values exceeds 1,
    every row is multiplied by 100. *)
Theorem normalize_fg3_pct_decision (df : list SeasonStats) :
  ((exists r : SeasonStats, In r df /\ (1 <? FG3_PCT r) = true) ->
   normalize_fg3_pct df = df)
  /\ ((forall r : SeasonStats, In r df -> PrimFloat.is_nan (FG3_PCT r) = true) ->
      normalize_fg3_pct df = df)
  /\ ((exists r : SeasonStats, In r df /\ PrimFloat.is_nan (FG3_PCT r) = false) ->
      (forall r : SeasonStats, In r df -> PrimFloat.is_nan (FG3_PCT r) = false ->
                               (FG3_PCT r <=? 1) = true) ->
      normalize_fg3_pct df
        = map (fun r : SeasonStats => with_FG3_PCT r (FG3_PCT r * 100)) df).
Proof.
  split; [| split].
  - intros [r [Hin Hgt]]. apply normalize_fg3_pct_fixed, FloatOrder.ltb_leb_false.
    apply (FloatOrder.max_above 1 (FG3_PCT r)); [| exact Hgt].
    apply in_map_iff. exists r. split; [reflexivity | exact Hin].
  - intros Hnan. apply normalize_fg3_pct_fixed, max_all_missing.
    destruct (filter Py.notna (map (fun r : SeasonStats => FG3_PCT r) df)) as [| x xs] eqn:E;
      [reflexivity | exfalso].
    assert (Hx : In x (filter Py.notna (map (fun r : SeasonStats => FG3_PCT r) df)))
      by (rewrite E; left; reflexivity).
    apply filter_In in Hx. destruct Hx as [Hx Hna].
    apply in_map_iff in Hx. destruct Hx as [r [<- Hr]].
    unfold Py.notna in Hna. rewrite (Hnan r Hr) in Hna. discriminate.
  - intros [r0 [Hin0 Hna0]] Hle. unfold normalize_fg3_pct.
    assert (Hne : filter Py.notna (map (fun r : SeasonStats => FG3_PCT r) df) <> []).
    { intros E.
      assert (Hx : In (FG3_PCT r0) (filter Py.notna (map (fun r : SeasonStats => FG3_PCT r) df))).
      { apply filter_In.
        split; [apply (in_map (fun r : SeasonStats => FG3_PCT r)); exact Hin0 |].
        unfold Py.notna. rewrite Hna0. reflexivity. }
      rewrite E in Hx. destruct Hx. }
    pose proof (max_in _ Hne) as Hmax. apply filter_In in Hmax. destruct Hmax as [Hmax Hna].
    apply in_map_iff in Hmax. destruct Hmax as [r [Hr Hin]].
    rewrite <- Hr, (Hle r Hin); [reflexivity |].
    unfold Py.notna in Hna. rewrite <- Hr in Hna. destruct (PrimFloat.is_nan (FG3_PCT r)); [discriminate | reflexivity].
Qed.

End NormalizationDecision.

(** ** The loaded dataset *)

Section LoadedDataset.

Local Open Scope float_scope.

Variable provider : Provider.

Lemma champions_keys : NoDup (map fst CHAMPIONS_DATA).
Proof. apply NoDup_by_nodup. reflexivity. Qed.

Lemma seasons_distinct : NoDup SEASONS.
Proof. apply NoDup_by_nodup. reflexivity. Qed.

Lemma champion_recorded (s : string) :
  In s SEASONS -> exists c, lookup s CHAMPIONS_DATA = Some c.
Proof.
  intros H. repeat (destruct H as [<- | H]; [eexists; reflexivity |]). destruct H.
Qed.

Lemma normalize_fg3_pct_cases (df : list SeasonStats) :
  normalize_fg3_pct df = df
  \/ normalize_fg3_pct df = map (fun r : SeasonStats => with_FG3_PCT r (FG3_PCT r * 100)) df.
Proof. unfold normalize_fg3_pct. destruct (_ <=? _); [right | left]; reflexivity. Qed.

Lemma load_dataset_rows_of (log : Log) (df : Dataset) (log' : Log) :
  load_dataset provider log = (inr df, log') ->
  exists table,
    aggregate provider SEASONS log = (inr table, log')
    /\ df = map (fun s : SeasonStats => dataset_row s (lookup (SEASON s) CHAMPIONS_DATA))
              (normalize_fg3_pct table).
Proof.
  intros H. destruct (load_dataset_with_run _ _ _ _ _ _ H) as [table [Hagg ->]].
  exists table. split; [exact Hagg | apply derive_dataset_rows, champions_keys].
Qed.

(** X3: after the fetches nothing is dropped, repeated or reordered: the
    dataset has the rows of the concatenated table in their order with season,
    team, games, wins, losses, makes, attempts and points unchanged; the 3PT%
    column is either unchanged or multiplied by 100 in every row; and the two
    per-game columns copy makes and attempts. *)
Theorem load_dataset_keeps_rows (log : Log) (df : Dataset) (log' : Log) :
  load_dataset provider log = (inr df, log') ->
  exists table : list SeasonStats,
    aggregate provider SEASONS log = (inr table, log')
    /\ List.length df = List.length table
    /\ map (fun r : Row => (SEASON r, TEAM_NAME r, GP r, W r, L r, FG3M r, FG3A r, PTS r)) df
       = map (fun r : SeasonStats =>
                (SEASON r, TEAM_NAME r, GP r, W r, L r, FG3M r, FG3A r, PTS r)) table
    /\ (map (fun r : Row => FG3_PCT r) df = map (fun r : SeasonStats => FG3_PCT r) table
        \/ map (fun r : Row => FG3_PCT r) df
           = map (fun r : SeasonStats => FG3_PCT r * 100) table)
    /\ Forall (fun r : Row => THREES_PER_GAME r = FG3M r /\ THREES_ATT_PER_GAME r = FG3A r) df.
Proof.
  intros H. destruct (load_dataset_rows_of _ _ _ H) as [table [Hagg ->]].
  exists table. split; [exact Hagg |].
  destruct (normalize_fg3_pct_cases table) as [-> | ->];
    rewrite ?map_map, ?length_map; repeat split; auto;
    apply Forall_forall; intros r Hr; apply in_map_iff in Hr;
    destruct Hr as [s [<- _]]; split; reflexivity.
Qed.

Lemma aggregate_seasons (log : Log) (table : list SeasonStats) (log' : Log) :
  aggregate provider SEASONS log = (inr table, log') ->
  forall r : SeasonStats, In r table -> In (SEASON r) SEASONS.
Proof.
  intros H r Hr. destruct (aggregate_fetched _ _ _ _ _ H) as [frames [Hfs ->]].
  pose proof (fetched_frames_tagged _ _ _ _ _ Hfs) as Htag.
  apply in_concat in Hr. destruct Hr as [df_s [Hdf Hr]].
  clear Hfs H. induction Htag as [| s f ss fs [log_s [t [_ ->]]] _ IH]; [destruct Hdf |].
  destruct Hdf as [<- | Hdf].
  - apply in_map_iff in Hr. destruct Hr as [t0 [<- _]]. left. reflexivity.
  - right. apply IH, Hdf.
Qed.

Lemma normalize_fg3_pct_in (df : list SeasonStats) (r : SeasonStats) :
  In r (normalize_fg3_pct df) ->
  exists r0 : SeasonStats, In r0 df /\ season_team r = season_team r0.
Proof.
  destruct (normalize_fg3_pct_cases df) as [-> | ->]; intros H.
  - exists r. split; [exact H | reflexivity].
  - apply in_map_iff in H. destruct H as [r0 [<- H]]. exists r0. split; [exact H | reflexivity].
Qed.

(** A loaded row is a table row of one of the ten seasons, joined with the
    champion found for its season. *)
Lemma load_dataset_row_inv (log : Log) (df : Dataset) (log' : Log) (r : Row) :
  load_dataset provider log = (inr df, log') ->
  In r df ->
  exists s : SeasonStats,
    In (SEASON s) SEASONS /\ r = dataset_row s (lookup (SEASON s) CHAMPIONS_DATA).
Proof.
  intros H Hr. destruct (load_dataset_rows_of _ _ _ H) as [table [Hagg ->]].
  apply in_map_iff in Hr. destruct Hr as [s [<- Hs]].
  destruct (normalize_fg3_pct_in _ _ Hs) as [s0 [Hs0 Hkey]].
  exists s. split; [| reflexivity].
  replace (SEASON s) with (SEASON s0) by (unfold season_team in Hkey; congruence).
  exact (aggregate_seasons _ _ _ Hagg _ Hs0).
Qed.

Lemma loaded_champion_team (log : Log) (df : Dataset) (log' : Log) (r : Row) :
  load_dataset provider log = (inr df, log') ->
  In r df ->
  IS_CHAMPION r = true ->
  lookup (SEASON r) CHAMPIONS_DATA = Some (TEAM_NAME r).
Proof.
  intros H Hr. destruct (load_dataset_row_inv _ _ _ _ H Hr) as [s [_ ->]].
  unfold dataset_row, flag_champion. cbn [IS_CHAMPION CHAMPION_TEAM].
  change (SEASON (mkRow _ _)) with (SEASON s).
  change (TEAM_NAME (mkRow _ _)) with (TEAM_NAME s).
  change (TEAM_NAME (mkMerged _ _)) with (TEAM_NAME s).
  destruct (lookup (SEASON s) CHAMPIONS_DATA) as [c |]; [| discriminate].
  intros Hc. apply String.eqb_eq in Hc. congruence.
Qed.

(** X5: every row of the loaded dataset belongs to one of the ten seasons,
    and the champions table has an entry for it: the joined champion name is
    never missing and the flag is the comparison of the team with it. *)
Theorem loaded_rows_have_champion (log : Log) (df : Dataset) (log' : Log) (r : Row) :
  load_dataset provider log = (inr df, log') ->
  In r df ->
  In (SEASON r) SEASONS
  /\ exists c : string,
       lookup (SEASON r) CHAMPIONS_DATA = Some c
       /\ CHAMPION_TEAM r = Some c
       /\ IS_CHAMPION r = String.eqb (TEAM_NAME r) c.
Proof.
  intros H Hr. destruct (load_dataset_row_inv _ _ _ _ H Hr) as [s [Hseason ->]].
  split; [exact Hseason |].
  destruct (champion_recorded _ Hseason) as [c Hc]. exists c.
  rewrite Hc. split; [exact Hc | split; reflexivity].
Qed.

(** The concatenated table has one row per season and team when no frame
    of the provider repeats a team. *)
Lemma aggregate_keys (log : Log) (table : list SeasonStats) (log' : Log) :
  (forall log_s s frame,
      provider log_s s = inr frame ->
      NoDup (map (fun t : TeamStats => TEAM_NAME t) frame)) ->
  aggregate provider SEASONS log = (inr table, log') ->
  NoDup (map season_team table).
Proof.
  intros Hprov Hagg.
  destruct (aggregate_fetched _ _ _ _ _ Hagg) as [frames [Hfs ->]].
  apply (concat_frames_NoDup SEASONS frames seasons_distinct).
  eapply Forall2_impl; [| exact (fetched_frames_tagged _ _ _ _ _ Hfs)].
  intros s0 df_s [log_s [frame [Hp ->]]]. split.
  - rewrite map_map. exact (Hprov _ _ _ Hp).
  - apply Forall_forall. intros r Hr. apply in_map_iff in Hr.
    destruct Hr as [t [<- _]]. reflexivity.
Qed.

Lemma derive_dataset_keys (table : list SeasonStats) :
  NoDup (map season_team table) ->
  NoDup (map (fun r : Row => season_team r) (derive_dataset CHAMPIONS_DATA table)).
Proof.
  intros H. rewrite (derive_dataset_rows _ _ champions_keys), map_map.
  change (NoDup (map season_team (normalize_fg3_pct table))).
  rewrite normalize_fg3_pct_season_team. exact H.
Qed.

(** X6: when the provider never repeats a team within a season, no two rows
    of the loaded dataset have the same season and team. *)
Theorem loaded_rows_distinct (log : Log) (df : Dataset) (log' : Log) :
  (forall log_s s frame,
      provider log_s s = inr frame ->
      NoDup (map (fun t : TeamStats => TEAM_NAME t) frame)) ->
  load_dataset provider log = (inr df, log') ->
  NoDup (map (fun r : Row => season_team r) df).
Proof.
  intros Hprov H. destruct (load_dataset_with_run _ _ _ _ _ _ H) as [table [Hagg ->]].
  apply derive_dataset_keys. exact (aggregate_keys _ _ _ Hprov Hagg).
Qed.

(** X7: under the same assumption the filtered table, whatever the widgets
    hold, has one row per team and at most one champion row, so the
    [head(1)] of the metric cards leaves no champion out. *)
Theorem filtered_table_one_champion (log : Log) (df : Dataset) (log' : Log) (ui : Inputs) :
  (forall log_s s frame,
      provider log_s s = inr frame ->
      NoDup (map (fun t : TeamStats => TEAM_NAME t) frame)) ->
  load_dataset provider log = (inr df, log') ->
  NoDup (map (fun r : Row => TEAM_NAME r) (filter_dataset df ui))
  /\ (List.length (filter IS_CHAMPION (filter_dataset df ui)) <= 1)%nat.
Proof.
  intros Hprov H.
  assert (Hkeys : NoDup (map (fun r : Row => season_team r) df)).
  { destruct (load_dataset_with_run _ _ _ _ _ _ H) as [table [Hagg ->]].
    apply derive_dataset_keys. exact (aggregate_keys _ _ _ Hprov Hagg). }
  pose proof (filter_dataset_teams df ui Hkeys) as Hteams.
  split; [exact Hteams |].
  apply (filter_pinned_length (fun r : Row => TEAM_NAME r) _
           (match lookup (selected_season ui) CHAMPIONS_DATA with
            | Some c => c
            | None => EmptyString
            end)); [exact Hteams |].
  intros r Hr Hc.
  unfold filter_dataset, filter_min_pct, filter_teams, season_rows in Hr.
  do 2 (apply filter_In in Hr; destruct Hr as [Hr _]).
  apply filter_In in Hr. destruct Hr as [Hr Hs]. apply String.eqb_eq in Hs.
  rewrite <- Hs, (loaded_champion_team _ _ _ _ H Hr Hc). reflexivity.
Qed.

End LoadedDataset.

Lemma load_dataset_keeps_rows_witness :
  exists table : list SeasonStats,
    aggregate Samples.provider SEASONS [] = (inr table, Samples.aggregated_log)
    /\ List.length Samples.loaded = List.length table
    /\ map (fun r : Row => (SEASON r, TEAM_NAME r, GP r, W r, L r, FG3M r, FG3A r, PTS r))
         Samples.loaded
       = map (fun r : SeasonStats =>
                (SEASON r, TEAM_NAME r, GP r, W r, L r, FG3M r, FG3A r, PTS r)) table
    /\ (map (fun r : Row => FG3_PCT r) Samples.loaded
        = map (fun r : SeasonStats => FG3_PCT r) table
        \/ map (fun r : Row => FG3_PCT r) Samples.loaded
           = map (fun r : SeasonStats => (FG3_PCT r * 100)%float) table)
    /\ Forall (fun r : Row => THREES_PER_GAME r = FG3M r /\ THREES_ATT_PER_GAME r = FG3A r)
         Samples.loaded.
Proof.
  apply (load_dataset_keeps_rows Samples.provider [] Samples.loaded Samples.aggregated_log).
  reflexivity.
Defined.

Lemma loaded_rows_have_champion_witness :
  In (SEASON Samples.celtics_row) SEASONS
  /\ exists c : string,
       lookup (SEASON Samples.celtics_row) CHAMPIONS_DATA = Some c
       /\ CHAMPION_TEAM Samples.celtics_row = Some c
       /\ IS_CHAMPION Samples.celtics_row = String.eqb (TEAM_NAME Samples.celtics_row) c.
Proof.
  apply (loaded_rows_have_champion Samples.provider [] Samples.loaded
           Samples.aggregated_log Samples.celtics_row).
  - reflexivity.
  - right. right. left. reflexivity.
Defined.

Lemma loaded_rows_distinct_witness :
  NoDup (map (fun r : Row => season_team r) Samples.loaded).
Proof.
  apply (loaded_rows_distinct Samples.provider [] Samples.loaded Samples.aggregated_log).
  - exact sample_provider_teams.
  - reflexivity.
Defined.

Lemma filtered_table_one_champion_witness :
  NoDup (map (fun r : Row => TEAM_NAME r)
           (filter_dataset Samples.loaded (Samples.everything "2023-24")))
  /\ (List.length (filter IS_CHAMPION
                     (filter_dataset Samples.loaded (Samples.everything "2023-24")))
      <= 1)%nat.
Proof.
  apply (filtered_table_one_champion Samples.provider [] Samples.loaded
           Samples.aggregated_log (Samples.everything "2023-24")).
  - exact sample_provider_teams.
  - reflexivity.
Defined.

(** ** Sorting *)

Section SortBy.

Context {A : Type}.
Variable before : A -> A -> bool.

Lemma insert_by_perm (x : A) (l : list A) : Permutation (Py.insert_by before x l) (x :: l).
Proof.
  induction l as [| y l IH]; simpl; [apply Permutation_refl |].
  destruct (before y x); [| apply Permutation_refl].
  apply perm_trans with (y :: x :: l); [apply perm_skip, IH | apply perm_swap].
Qed.

Lemma sort_by_perm (l : list A) : Permutation (Py.sort_by before l) l.
Proof.
  induction l as [| x l IH]; simpl; [constructor |].
  apply perm_trans with (x :: Py.sort_by before l);
    [apply insert_by_perm | apply perm_skip, IH].
Qed.

(** The elements the order is known to behave on. *)
Variable ok : A -> Prop.
Hypothesis before_asym : forall a b, before a b = true -> before b a = false.
Hypothesis before_negtrans :
  forall a b c, ok b -> before a b = false -> before b c = false -> before a c = false.

(** No later element must come ahead of an earlier one. *)
Local Abbreviation in_order := (StronglySorted (fun a b => before b a = false)).

Lemma insert_by_in_order (x : A) (l : list A) :
  Forall ok l -> in_order l -> in_order (Py.insert_by before x l).
Proof.
  induction l as [| y l IH]; intros Hok Hl; simpl.
  - constructor; constructor.
  - inversion Hok as [| ? ? Hy Hok']; subst.
    apply StronglySorted_inv in Hl. destruct Hl as [Hl Hyl].
    destruct (before y x) eqn:E.
    + constructor; [apply IH; assumption |].
      apply Forall_forall. intros z Hz.
      apply (Permutation_in _ (insert_by_perm x l)) in Hz. destruct Hz as [<- | Hz].
      * apply before_asym, E.
      * rewrite Forall_forall in Hyl. apply Hyl, Hz.
    + constructor; [constructor; assumption |].
      constructor; [exact E |].
      apply Forall_forall. intros z Hz. rewrite Forall_forall in Hyl.
      exact (before_negtrans z y x Hy (Hyl z Hz) E).
Qed.

Lemma sort_by_in_order (l : list A) : Forall ok l -> in_order (Py.sort_by before l).
Proof.
  induction l as [| x l IH]; intros Hok; simpl; [constructor |].
  inversion Hok as [| ? ? Hx Hok']; subst.
  apply insert_by_in_order; [| apply IH, Hok'].
  apply Forall_forall. intros z Hz.
  apply (Permutation_in _ (sort_by_perm l)) in Hz.
  rewrite Forall_forall in Hok'. apply Hok', Hz.
Qed.

End SortBy.

Lemma filter_split_perm {A} (p : A -> bool) (l : list A) :
  Permutation (filter p l ++ filter (fun x => negb (p x)) l) l.
Proof.
  induction l as [| x l IH]; simpl; [constructor |].
  destruct (p x); simpl; [apply perm_skip, IH |].
  apply Permutation_sym, Permutation_cons_app, Permutation_sym, IH.
Qed.




(** ** The order of floats, for sorting *)

Section FloatSorting.

Local Open Scope float_scope.

Lemma is_nan_Prim2SF (x : float) : PrimFloat.is_nan x = true -> Prim2SF x = S754_nan.
Proof.
  intros H. destruct (Prim2SF x) eqn:E; try reflexivity;
    assert (Hn : Py.notna x = true) by (apply FloatOrder.notna_spec; rewrite E; discriminate);
    unfold Py.notna in Hn; rewrite H in Hn; discriminate.
Qed.

Lemma SFcompare_nan_r (a : spec_float) : SFcompare a S754_nan = None.
Proof. destruct a as [[]|[]| |[] ? ?]; reflexivity. Qed.



Lemma leb_nan_r (x y : float) : PrimFloat.is_nan y = true -> (x <=? y) = false.
Proof.
  intros H. rewrite leb_spec, (is_nan_Prim2SF _ H). unfold SFleb.
  rewrite SFcompare_nan_r. reflexivity.
Qed.



Context {A : Type}.
Variable key : A -> float.

Lemma sort_values_perm (ascending : bool) (df : list A) :
  Permutation (Py.sort_values key ascending df) df.
Proof.
  unfold Py.sort_values.
  eapply perm_trans; [apply Permutation_app_tail, sort_by_perm |].
  apply (filter_split_perm (fun r => Py.notna (key r))).
Qed.


End FloatSorting.

(** ** The bar ranking *)

Section TopBar.

Local Open Scope float_scope.


End TopBar.

(** ** The order of strings *)

Section StringOrder.

Lemma ascii_compare_lt_trans (a b c : ascii) :
  Ascii.compare a b = Lt -> Ascii.compare b c = Lt -> Ascii.compare a c = Lt.
Proof. unfold Ascii.compare. rewrite !N.compare_lt_iff. apply N.lt_trans. Qed.

Lemma string_compare_lt_trans (s1 : string) :
  forall s2 s3, String.compare s1 s2 = Lt -> String.compare s2 s3 = Lt ->
                String.compare s1 s3 = Lt.
Proof.
  induction s1 as [| a s1 IH]; intros [| b s2] [| c s3]; simpl; try discriminate; auto.
  destruct (Ascii.compare a b) eqn:Eab; try discriminate;
    destruct (Ascii.compare b c) eqn:Ebc; try discriminate; intros H1 H2.
  - apply Ascii.compare_eq_iff in Eab, Ebc. subst.
    replace (Ascii.compare c c) with Eq
      by (symmetry; unfold Ascii.compare; apply N.compare_refl).
    exact (IH _ _ H1 H2).
  - apply Ascii.compare_eq_iff in Eab. subst. rewrite Ebc. reflexivity.
  - apply Ascii.compare_eq_iff in Ebc. subst. rewrite Eab. reflexivity.
  - rewrite (ascii_compare_lt_trans _ _ _ Eab Ebc). reflexivity.
Qed.

Lemma string_ltb_asym (a b : string) : String.ltb a b = true -> String.ltb b a = false.
Proof.
  unfold String.ltb. rewrite (String.compare_antisym b a).
  destruct (String.compare a b); simpl; congruence.
Qed.

Lemma string_ltb_negtrans (a b c : string) :
  String.ltb a b = false -> String.ltb b c = false -> String.ltb a c = false.
Proof.
  unfold String.ltb. intros Hab Hbc.
  destruct (String.compare a c) eqn:Hac; try reflexivity. exfalso.
  destruct (String.compare a b) eqn:Eab; try discriminate.
  - apply String.compare_eq_iff in Eab. subst. rewrite Hac in Hbc. discriminate.
  - assert (Hba : String.compare b a = Lt)
      by (rewrite String.compare_antisym, Eab; reflexivity).
    rewrite (string_compare_lt_trans _ _ _ Hba Hac) in Hbc. discriminate.
Qed.

(** Distinct strings are ordered one way or the other. *)
Lemma string_ltb_total (a b : string) :
  a <> b -> String.ltb b a = false -> String.ltb a b = true.
Proof.
  unfold String.ltb. rewrite (String.compare_antisym b a). intros Hne.
  destruct (String.compare a b) eqn:E; simpl; try congruence.
  apply String.compare_eq_iff in E. contradiction.
Qed.

Lemma sorted_unique_in (keys : list string) (s : string) :
  In s (Py.sorted_unique keys) <-> In s keys.
Proof.
  unfold Py.sorted_unique. rewrite <- (nodup_In string_dec keys s). split.
  - apply Permutation_in, sort_by_perm.
  - apply Permutation_in, Permutation_sym, sort_by_perm.
Qed.

Lemma sorted_unique_NoDup (keys : list string) : NoDup (Py.sorted_unique keys).
Proof.
  unfold Py.sorted_unique.
  apply (Permutation_NoDup (Permutation_sym (sort_by_perm _ _))), NoDup_nodup.
Qed.

Lemma StronglySorted_strict {A} (R S : A -> A -> Prop) (l : list A) :
  (forall a b, a <> b -> R a b -> S a b) ->
  NoDup l -> StronglySorted R l -> StronglySorted S l.
Proof.
  intros HRS Hnd H. induction H as [| x l _ IH Hx]; constructor.
  - apply IH. inversion Hnd; assumption.
  - inversion Hnd as [| ? ? Hnotin _]; subst.
    rewrite Forall_forall in *. intros b Hb. apply HRS; [| exact (Hx b Hb)].
    intros ->. contradiction.
Qed.

(** The group keys come out in strictly ascending order. *)
Lemma sorted_unique_ascending (keys : list string) :
  StronglySorted (fun a b => String.ltb a b = true) (Py.sorted_unique keys).
Proof.
  apply (StronglySorted_strict (fun a b => String.ltb b a = false)).
  - intros a b. apply string_ltb_total.
  - apply sorted_unique_NoDup.
  - unfold Py.sorted_unique.
    apply (sort_by_in_order String.ltb (fun _ => True)).
    + apply string_ltb_asym.
    + intros a b c _. apply string_ltb_negtrans.
    + apply Forall_forall. intros; exact I.
Qed.

End StringOrder.

(** ** The line chart *)

Section Evolution.

(** X13: the line chart lists the league points first, one per season
    present in the dataset and in strictly ascending season order, each at
    the group mean of the attempts per game of the rows of its season, then
    one champion point per champion row, in row order, with that row's season
    and attempts per game. *)
Theorem plot_evolution_series (df_all : Dataset) :
  exists league champs : list LinePoint,
    marks (plot_evolution df_all) = league ++ champs
    /\ Forall (fun p => lp_color p = "Liga (média)") league
    /\ Forall (fun p => lp_color p = "Campeão") champs
    /\ StronglySorted (fun a b => String.ltb a b = true) (map lp_x league)
    /\ (forall s, In s (map lp_x league) <-> exists r : Row, In r df_all /\ SEASON r = s)
    /\ map (fun p => (lp_x p, lp_y p)) champs
       = map (fun r : Row => (SEASON r, THREES_ATT_PER_GAME r)) (filter IS_CHAMPION df_all)
    /\ Forall (fun p =>
                 lp_y p = Py.group_mean
                            (map (fun r : Row => THREES_ATT_PER_GAME r)
                               (filter (fun r : Row => String.eqb (SEASON r) (lp_x p))
                                  df_all)))
         league.
Proof.
  unfold plot_evolution. cbn [marks]. eexists. eexists. split; [reflexivity |].
  match goal with |- _ /\ _ /\ _ /\ _ /\ _ /\ ?G =>
    assert (Hmean : G)
      by (apply Forall_forall; intros p Hp; apply in_map_iff in Hp;
          destruct Hp as [s [<- _]]; reflexivity)
  end.
  split; [apply Forall_forall; intros p Hp; apply in_map_iff in Hp;
          destruct Hp as [s [<- _]]; reflexivity |].
  split; [apply Forall_forall; intros p Hp; apply in_map_iff in Hp;
          destruct Hp as [s [<- _]]; reflexivity |].
  rewrite !map_map. cbn [lp_x lp_y]. rewrite map_id.
  split; [apply sorted_unique_ascending |].
  split; [| split; [reflexivity | exact Hmean]].
  intros s. rewrite sorted_unique_in, in_map_iff. split; intros [r [H1 H2]]; exists r; tauto.
Qed.

End Evolution.

(** ** The sidebar defaults *)

Section Widgets.

Local Open Scope float_scope.

Lemma season_options_in (df : Dataset) (s : string) :
  In s (season_options df) <-> exists r : Row, In r df /\ SEASON r = s.
Proof.
  unfold season_options. split.
  - intros H. apply (Permutation_in _ (sort_by_perm _ _)), nodup_In, in_map_iff in H.
    destruct H as [r [H1 H2]]. exists r. tauto.
  - intros [r [H1 H2]].
    apply (Permutation_in _ (Permutation_sym (sort_by_perm _ _))), nodup_In, in_map_iff.
    exists r. tauto.
Qed.

Lemma season_options_descending (df : Dataset) :
  StronglySorted (fun a b => String.ltb a b = false) (season_options df).
Proof.
  unfold season_options.
  apply (sort_by_in_order (fun y x => String.ltb x y) (fun _ => True)).
  - intros a b. apply string_ltb_asym.
  - intros a b c _ H1 H2. exact (string_ltb_negtrans _ _ _ H2 H1).
  - apply Forall_forall. intros; exact I.
Qed.

Lemma filter_teams_options (df_season : Dataset) :
  filter_teams (team_options df_season) df_season = df_season.
Proof.
  unfold filter_teams. apply forallb_filter_id, forallb_forall. intros r Hr.
  apply existsb_exists. exists (TEAM_NAME r). split; [| apply String.eqb_refl].
  apply sorted_unique_in. apply (in_map (fun r : Row => TEAM_NAME r)), Hr.
Qed.

(** X14: untouched, the widgets select a season of the dataset that no
    other season of the dataset follows in the order of strings, every team of
    that season and the threshold 0; the team filter then drops nothing, and
    the page shows the whole season when no 3PT% is missing or negative. *)
Theorem default_inputs_show_latest_season (df : Dataset) (ui : Inputs) :
  default_inputs df = Some ui ->
  (exists r : Row, In r df /\ SEASON r = selected_season ui)
  /\ (forall r : Row, In r df -> String.ltb (selected_season ui) (SEASON r) = false)
  /\ min_fg3_pct ui = 0%Z
  /\ filter_teams (selected_teams ui) (season_rows df (selected_season ui))
     = season_rows df (selected_season ui)
  /\ ((forall r : Row, In r df -> (0 <=? FG3_PCT r) = true) ->
      filter_dataset df ui = season_rows df (selected_season ui)).
Proof.
  unfold default_inputs. intros H.
  pose proof (season_options_descending df) as Hsorted.
  pose proof (season_options_in df) as Hin.
  destruct (season_options df) as [| s0 rest]; [discriminate |].
  injection H as <-. cbn [selected_season selected_teams min_fg3_pct].
  split; [apply Hin; left; reflexivity |].
  split.
  { intros r Hr. apply StronglySorted_inv in Hsorted. destruct Hsorted as [_ Hall].
    assert (Hs : In (SEASON r) (s0 :: rest)) by (apply Hin; exists r; tauto).
    destruct Hs as [Hs | Hs].
    - rewrite <- Hs. destruct (String.ltb s0 s0) eqn:E; [| reflexivity].
      pose proof (string_ltb_asym _ _ E) as E'. congruence.
    - rewrite Forall_forall in Hall. apply Hall, Hs. }
  split; [reflexivity |].
  split; [apply filter_teams_options |].
  intros Hpos. unfold filter_dataset. cbn [selected_season selected_teams min_fg3_pct].
  rewrite filter_teams_options. unfold filter_min_pct.
  apply forallb_filter_id, forallb_forall. intros r Hr.
  apply filter_In in Hr. destruct Hr as [Hr _]. exact (Hpos r Hr).
Qed.

Lemma default_inputs_none (df : Dataset) : default_inputs df = None <-> df = [].
Proof.
  unfold default_inputs. pose proof (season_options_in df) as Hin. split.
  - destruct (season_options df) as [| s0 rest] eqn:E; [intros _ | discriminate].
    destruct df as [| r df]; [reflexivity | exfalso].
    apply (proj2 (Hin (SEASON r))). exists r. split; [left |]; reflexivity.
  - intros ->. reflexivity.
Qed.

End Widgets.

Lemma default_inputs_show_latest_season_witness :
  (exists r : Row, In r Samples.loaded /\ SEASON r = "2023-24")
  /\ (forall r : Row, In r Samples.loaded -> String.ltb "2023-24" (SEASON r) = false)
  /\ 0%Z = 0%Z
  /\ filter_teams ["Boston Celtics"; "Denver Nuggets"] (season_rows Samples.loaded "2023-24")
     = season_rows Samples.loaded "2023-24"
  /\ ((forall r : Row, In r Samples.loaded -> PrimFloat.leb 0 (FG3_PCT r) = true) ->
      filter_dataset Samples.loaded (Samples.everything "2023-24")
        = season_rows Samples.loaded "2023-24").
Proof.
  apply (default_inputs_show_latest_season Samples.loaded (Samples.everything "2023-24")).
  reflexivity.
Defined.

(** ** The filtered table *)

Section FilteredTable.

Local Open Scope float_scope.

(** X8: the filtered table holds exactly the rows of the dataset with the
    selected season, a selected team and a 3PT% at or above the threshold;
    filtering it again with the same widgets changes nothing; and with no team
    selected it is empty. *)
Theorem filter_dataset_rows (df : Dataset) (ui : Inputs) :
  (forall r : Row,
      In r (filter_dataset df ui)
      <-> In r df
          /\ SEASON r = selected_season ui
          /\ In (TEAM_NAME r) (selected_teams ui)
          /\ (Py.float_of_int (min_fg3_pct ui) <=? FG3_PCT r) = true)
  /\ filter_dataset (filter_dataset df ui) ui = filter_dataset df ui
  /\ (selected_teams ui = [] -> filter_dataset df ui = []).
Proof.
  unfold filter_dataset, filter_min_pct, filter_teams, season_rows. split; [| split].
  - intros r. rewrite !filter_In, String.eqb_eq, existsb_exists. split.
    + intros [[[Hr Hs] [t [Ht Heq]]] Hp]. apply String.eqb_eq in Heq. subst t. tauto.
    + intros [Hr [Hs [Ht Hp]]]. repeat split; try assumption.
      exists (TEAM_NAME r). split; [exact Ht | apply String.eqb_refl].
  - set (p3 := fun r : Row => _ <=? FG3_PCT r).
    set (p2 := fun r : Row => existsb _ _).
    set (p1 := fun r : Row => String.eqb (SEASON r) (selected_season ui)).
    set (table := filter p3 (filter p2 (filter p1 df))).
    assert (Hall : forall r, In r table -> p1 r = true /\ p2 r = true /\ p3 r = true).
    { intros r Hr. subst table. rewrite !filter_In in Hr. tauto. }
    rewrite (forallb_filter_id p1 table), (forallb_filter_id p2 table);
      [apply forallb_filter_id | |]; apply forallb_forall; intros r Hr; apply Hall, Hr.
  - intros ->.
    assert (Hnone : forall l : Dataset,
               filter (fun r : Row => existsb (String.eqb (TEAM_NAME r)) []) l = [])
      by (induction l as [| x l IH]; [reflexivity | exact IH]).
    rewrite Hnone. reflexivity.
Qed.

(** X9: a row whose 3PT% is missing never reaches the views: the comparison
    with the threshold is false for NaN, at threshold 0 too. *)
Theorem missing_pct_is_filtered_out (df : Dataset) (ui : Inputs) (r : Row) :
  PrimFloat.is_nan (FG3_PCT r) = true ->
  ~ In r (filter_dataset df ui).
Proof.
  intros Hnan Hin. unfold filter_dataset, filter_min_pct in Hin.
  apply filter_In in Hin. destruct Hin as [_ Hp].
  rewrite (leb_nan_r _ _ Hnan) in Hp. discriminate.
Qed.

End FilteredTable.

(** ** The metric cards never raise *)

Section Rendering.

(** X10: the metric cards never raise: there are always four, under fixed
    labels; the champion cards read "N/A" without a delta when the table has
    no champion row (the champion's team is filtered out, or the table is
    empty), and carry a delta as soon as it has one. *)
Theorem render_metrics_four_cards (df_filtered : Dataset) :
  exists c1 c2 c3 c4 : Metric,
    render_metrics df_filtered = inr [c1; c2; c3; c4]
    /\ map label [c1; c2; c3; c4]
       = ["Tentativas 3PT/Jogo"; "3PT% médio"; "Campeão — 3PT%"; "% pontos do 3PT"]
    /\ ((forall r : Row, In r df_filtered -> IS_CHAMPION r = false)
        -> value c3 = "N/A" /\ delta c3 = None /\ value c4 = "N/A" /\ delta c4 = None)
    /\ ((exists r : Row, In r df_filtered /\ IS_CHAMPION r = true)
        -> delta c3 <> None /\ delta c4 = Some "Campeão").
Proof.
  rewrite render_metrics_cards.
  destruct (filter IS_CHAMPION df_filtered) as [| r0 later] eqn:E;
    do 4 eexists; (split; [reflexivity |]); (split; [reflexivity |]); split.
  - intros _. repeat split.
  - intros [r [Hr Hc]].
    assert (Hin : In r (filter IS_CHAMPION df_filtered)) by (apply filter_In; tauto).
    rewrite E in Hin. destruct Hin.
  - intros Hnone.
    assert (Hin : In r0 (filter IS_CHAMPION df_filtered)) by (rewrite E; left; reflexivity).
    apply filter_In in Hin. destruct Hin as [Hin Hc]. rewrite (Hnone r0 Hin) in Hc.
    discriminate.
  - intros _. split; [discriminate | reflexivity].
Qed.

End Rendering.

Lemma missing_pct_is_filtered_out_witness :
  ~ In Samples.missing_pct_row
      (filter_dataset [Samples.missing_pct_row; Samples.celtics_row]
         (mkInputs "2023-24" ["Miami Heat"; "Boston Celtics"] 0)).
Proof.
  apply (missing_pct_is_filtered_out [Samples.missing_pct_row; Samples.celtics_row]
           (mkInputs "2023-24" ["Miami Heat"; "Boston Celtics"] 0)
           Samples.missing_pct_row).
  reflexivity.
Defined.

Example missing_pct_sample :
  map (fun r : Row => TEAM_NAME r)
      (filter_dataset [Samples.missing_pct_row; Samples.celtics_row]
         (mkInputs "2023-24" ["Miami Heat"; "Boston Celtics"] 0))
    = ["Boston Celtics"].
Proof. reflexivity. Qed.

(** ** The champion line *)

Section ChampionLine.

Lemma NoDup_map_determined {A K1 K2} (f : A -> K1) (g : A -> K2) (l : list A) :
  (forall x y, In x l -> In y l -> g x = g y -> f x = f y) ->
  NoDup (map f l) -> NoDup (map g l).
Proof.
  induction l as [| x l IH]; intros Hdet Hnd; simpl; [constructor |].
  inversion Hnd as [| ? ? Hx Hl]; subst. constructor.
  - intros Hin. apply Hx. apply in_map_iff in Hin. destruct Hin as [y [Hy Hin]].
    apply in_map_iff. exists y. split; [| exact Hin].
    apply Hdet; [right; exact Hin | left; reflexivity | exact Hy].
  - apply IH; [| exact Hl]. intros a b Ha Hb. apply Hdet; right; assumption.
Qed.

Variable provider : Provider.

(** X16: when the provider never repeats a team within a season, the
    champion line of the chart has at most one point per season. *)
Theorem champion_line_one_point_per_season (log : Log) (df : Dataset) (log' : Log) :
  (forall log_s s frame,
      provider log_s s = inr frame ->
      NoDup (map (fun t : TeamStats => TEAM_NAME t) frame)) ->
  load_dataset provider log = (inr df, log') ->
  NoDup (map lp_x (filter (fun p => String.eqb (lp_color p) "Campeão")
                     (marks (plot_evolution df)))).
Proof.
  intros Hprov Hload.
  unfold plot_evolution. cbn [marks]. rewrite filter_app.
  match goal with |- NoDup (map _ (filter ?p (map ?f ?l) ++ _)) =>
    assert (Hleague : filter p (map f l) = []) end.
  { set (l := Py.sorted_unique _). clearbody l.
    induction l as [| s l IH]; [reflexivity | exact IH]. }
  rewrite Hleague. cbn [app].
  rewrite (forallb_filter_id _ (map _ (filter IS_CHAMPION df)))
    by (apply forallb_forall; intros p Hp; apply in_map_iff in Hp;
        destruct Hp as [r [<- _]]; reflexivity).
  rewrite map_map. cbn [lp_x].
  apply (NoDup_map_determined (fun r : Row => season_team r)).
  - intros x y Hx Hy Hs. apply filter_In in Hx, Hy.
    destruct Hx as [Hx Hcx], Hy as [Hy Hcy].
    pose proof (loaded_champion_team _ _ _ _ _ Hload Hx Hcx) as Hlx.
    pose proof (loaded_champion_team _ _ _ _ _ Hload Hy Hcy) as Hly.
    unfold season_team. rewrite Hs in Hlx. congruence.
  - apply NoDup_map_filter.
    destruct (load_dataset_with_run _ _ _ _ _ _ Hload) as [table [Hagg ->]].
    apply derive_dataset_keys. exact (aggregate_keys _ _ _ _ Hprov Hagg).
Qed.

End ChampionLine.

(** ** The views agree *)

Section ViewsAgree.

(** X17: the views of a page show the same rows: the scatter chart has one
    point per row of the filtered table and the table one record per row, in
    the same order; the bar chart has [min(10, n)] bars, each the team and
    champion flag of a point of the scatter chart. *)
Theorem page_views_agree (df : Dataset) (ui : Inputs) :
  exists page : Page,
    render_page df ui = inr page
    /\ map pt_hover_name (marks (scatter page))
       = map (fun r : Row => TEAM_NAME r) (filter_dataset df ui)
    /\ map (fun record => hd CNull record) (records (dataframe page))
       = map (fun r : Row => CStr (TEAM_NAME r)) (filter_dataset df ui)
    /\ List.length (marks (top_bar page))
       = Nat.min 10 (List.length (marks (scatter page)))
    /\ (forall b : Bar, In b (marks (top_bar page)) ->
          exists p : Point,
            In p (marks (scatter page))
            /\ pt_hover_name p = bar_y b /\ pt_color p = bar_color b).
Proof.
  destruct (render_page_defined df ui) as [page [Hpage [_ [Hbar [Hsc [_ Hexp]]]]]].
  destruct (export_run (filter_dataset df ui) (selected_season ui)) as [t [Ht [_ Hrecs]]].
  rewrite Ht in Hexp. injection Hexp as Hdf _.
  exists page. split; [exact Hpage |].
  rewrite Hbar, Hsc, <- Hdf, Hrecs. unfold plot_scatter, plot_top_bar, Py.nlargest.
  cbn [marks]. rewrite !map_map, !length_map. cbn [pt_hover_name hd].
  split; [reflexivity | split; [reflexivity | split]].
  - rewrite (Permutation_length (sort_values_perm _ _ _)), length_firstn.
    rewrite (Permutation_length (sort_values_perm _ _ _)). reflexivity.
  - intros b Hb. apply in_map_iff in Hb. destruct Hb as [r [<- Hr]].
    apply (Permutation_in _ (sort_values_perm _ _ _)) in Hr.
    assert (Hr' : In r (Py.sort_values (fun r : Row => THREES_PER_GAME r) false
                          (filter_dataset df ui))).
    { rewrite <- (firstn_skipn 10). apply in_or_app. left. exact Hr. }
    apply (Permutation_in _ (sort_values_perm _ _ _)) in Hr'.
    eexists. split; [apply in_map_iff; exists r; split; [reflexivity | exact Hr'] |].
    split; reflexivity.
Qed.

End ViewsAgree.

Lemma champion_line_one_point_per_season_witness :
  NoDup (map lp_x (filter (fun p => String.eqb (lp_color p) "Campeão")
                     (marks (plot_evolution Samples.loaded)))).
Proof.
  apply (champion_line_one_point_per_season Samples.provider [] Samples.loaded
           Samples.aggregated_log).
  - exact sample_provider_teams.
  - reflexivity.
Defined.
